(** * The OAuth 2.0 device-authorization helper of the Lakekeeper notebooks

    Embedding of [authenticate_device_flow_with_pkce]
    (cmd/insta/resources/data/lakekeeper/access-control-advanced/notebooks/device_code_auth.py).

    The function talks to an authorization server and may poll for ever, so
    it is written as an interaction tree over the effects it performs
    ([secrets.choice], [requests.post], [print], [time.sleep]); Python
    exceptions are carried in the result.  Its runs are observed by a
    fuel-bounded interpreter against a scripted environment. *)

From Stdlib Require Import List ZArith Lia String Ascii Bool Arith.
From Stdlib Require Import Strings.Byte.
From ITree Require Import ITree.
Import ListNotations.

Local Open Scope string_scope.
Local Open Scope Z_scope.

(** ** Python [str]

    A [str] is a [string] whose characters are the code points below 256. *)

Module str.

(** [sub in s] on strings: [sub] occurs somewhere in [s]. *)
Fixpoint contains (sub s : string) : bool :=
  match s with
  | EmptyString => prefix sub EmptyString
  | String _ s' => prefix sub s || contains sub s'
  end.

(** The scan of [str.replace]: [skip] characters of a match just replaced
    are still to be dropped. *)
Fixpoint replace_from (old new : string) (skip : nat) (s : string) : string :=
  match s with
  | EmptyString => EmptyString
  | String c s' =>
      match skip with
      | S k => replace_from old new k s'
      | O =>
          if prefix old s
          then new ++ replace_from old new (Nat.pred (String.length old)) s'
          else String c (replace_from old new O s')
      end
  end.

(** [s.replace("", new)]: [new] before every character and at the end. *)
Fixpoint intersperse (new s : string) : string :=
  match s with
  | EmptyString => new
  | String c s' => new ++ String c (intersperse new s')
  end.

(** [s.replace(old, new)]: every non-overlapping occurrence, leftmost first. *)
Definition replace (s old new : string) : string :=
  match old with
  | EmptyString => intersperse new s
  | String _ _ => replace_from old new O s
  end.

(** [sep.join(parts)]. *)
Fixpoint join (sep : string) (parts : list string) : string :=
  match parts with
  | [] => EmptyString
  | [p] => p
  | p :: rest => p ++ sep ++ join sep rest
  end.

(** [s.encode("utf-8")] for code points below 256. *)
Definition encode_char (c : ascii) : list byte :=
  let n := Z.of_N (N_of_ascii c) in
  let of_Z z := match Byte.of_N (Z.to_N z) with Some b => b | None => x00 end in
  if n <? 128 then [of_Z n]
  else [of_Z (Z.lor 192 (Z.shiftr n 6)); of_Z (Z.lor 128 (Z.land n 63))].

Fixpoint encode (s : string) : list byte :=
  match s with
  | EmptyString => []
  | String c s' => encode_char c ++ encode s'
  end.

End str.

(** ** Python [bytes] *)

Module bytes.

Definition to_Z (b : byte) : Z := Z.of_N (Byte.to_N b).

Definition of_Z (z : Z) : byte :=
  match Byte.of_N (Z.to_N (z mod 256)) with Some b => b | None => x00 end.

(** [b.decode("utf-8")]: [None] is [UnicodeDecodeError] (or a code point
    of 256 and more, which a [str] of this model cannot hold). *)
Fixpoint decode (bs : list byte) : option string :=
  match bs with
  | [] => Some EmptyString
  | b :: rest =>
      let n := to_Z b in
      if n <? 128 then option_map (String (ascii_of_byte b)) (decode rest)
      else
        match rest with
        | b' :: rest' =>
            let m := to_Z b' in
            if ((n =? 194) || (n =? 195)) && (128 <=? m) && (m <? 192)
            then option_map
                   (String (ascii_of_N (Z.to_N (Z.lor (Z.shiftl (Z.land n 3) 6) (Z.land m 63)))))
                   (decode rest')
            else None
        | [] => None
        end
  end.

(** [b.translate(table)] with a table given by its exceptions. *)
Definition translate_byte (table : list (byte * byte)) (b : byte) : byte :=
  match find (fun p => Byte.eqb (fst p) b) table with
  | Some p => snd p
  | None => b
  end.

Definition translate (table : list (byte * byte)) (bs : list byte) : list byte :=
  map (translate_byte table) bs.

End bytes.

(** ** [base64] *)

Module base64.

Definition alphabet : string :=
  "ABCDEFGHIJKLMNOPQRSTUVWXYZabcdefghijklmnopqrstuvwxyz0123456789+/".

Definition digit (n : Z) : byte :=
  match get (Z.to_nat n) alphabet with
  | Some c => byte_of_ascii c
  | None => x00
  end.

Definition pad : byte := byte_of_ascii "=".

(** [base64.b64encode]: three bytes give four digits, the last group is
    padded with [=]. *)
Fixpoint b64encode (bs : list byte) : list byte :=
  match bs with
  | [] => []
  | [a] =>
      let a := bytes.to_Z a in
      [digit (Z.shiftr a 2); digit (Z.shiftl (Z.land a 3) 4); pad; pad]
  | [a; b] =>
      let a := bytes.to_Z a in
      let b := bytes.to_Z b in
      [digit (Z.shiftr a 2);
       digit (Z.lor (Z.shiftl (Z.land a 3) 4) (Z.shiftr b 4));
       digit (Z.shiftl (Z.land b 15) 2); pad]
  | a :: b :: c :: rest =>
      let a := bytes.to_Z a in
      let b := bytes.to_Z b in
      let c := bytes.to_Z c in
      digit (Z.shiftr a 2)
        :: digit (Z.lor (Z.shiftl (Z.land a 3) 4) (Z.shiftr b 4))
        :: digit (Z.lor (Z.shiftl (Z.land b 15) 2) (Z.shiftr c 6))
        :: digit (Z.land c 63)
        :: b64encode rest
  end.

(** [base64.urlsafe_b64encode]: [+] becomes [-] and [/] becomes [_]. *)
Definition urlsafe_translation : list (byte * byte) :=
  [(byte_of_ascii "+", byte_of_ascii "-"); (byte_of_ascii "/", byte_of_ascii "_")].

Definition urlsafe_b64encode (bs : list byte) : list byte :=
  bytes.translate urlsafe_translation (b64encode bs).

End base64.

(** ** [hashlib.sha256]

    The digest of FIPS 180-4 on 32-bit words held in [Z]. *)

Module hashlib.

Definition w32 (x : Z) : Z := x mod 2 ^ 32.
Definition add32 (x y : Z) : Z := w32 (x + y).
Definition rotr (n x : Z) : Z := Z.lor (Z.shiftr x n) (w32 (Z.shiftl x (32 - n))).
Definition not32 (x : Z) : Z := Z.lxor x (2 ^ 32 - 1).

Definition Ch (x y z : Z) : Z := Z.lxor (Z.land x y) (Z.land (not32 x) z).
Definition Maj (x y z : Z) : Z :=
  Z.lxor (Z.lxor (Z.land x y) (Z.land x z)) (Z.land y z).
Definition Sigma0 (x : Z) : Z := Z.lxor (Z.lxor (rotr 2 x) (rotr 13 x)) (rotr 22 x).
Definition Sigma1 (x : Z) : Z := Z.lxor (Z.lxor (rotr 6 x) (rotr 11 x)) (rotr 25 x).
Definition sigma0 (x : Z) : Z := Z.lxor (Z.lxor (rotr 7 x) (rotr 18 x)) (Z.shiftr x 3).
Definition sigma1 (x : Z) : Z := Z.lxor (Z.lxor (rotr 17 x) (rotr 19 x)) (Z.shiftr x 10).

(** The round constants (FIPS 180-4, 4.2.2), written in decimal. *)
Definition K : list Z :=
  [1116352408; 1899447441; 3049323471; 3921009573; 961987163;
   1508970993; 2453635748; 2870763221; 3624381080; 310598401;
   607225278; 1426881987; 1925078388; 2162078206; 2614888103;
   3248222580; 3835390401; 4022224774; 264347078; 604807628;
   770255983; 1249150122; 1555081692; 1996064986; 2554220882;
   2821834349; 2952996808; 3210313671; 3336571891; 3584528711;
   113926993; 338241895; 666307205; 773529912; 1294757372;
   1396182291; 1695183700; 1986661051; 2177026350; 2456956037;
   2730485921; 2820302411; 3259730800; 3345764771; 3516065817;
   3600352804; 4094571909; 275423344; 430227734; 506948616;
   659060556; 883997877; 958139571; 1322822218; 1537002063;
   1747873779; 1955562222; 2024104815; 2227730452; 2361852424;
   2428436474; 2756734187; 3204031479; 3329325298].

(** The initial hash value (FIPS 180-4, 5.3.3), in decimal. *)
Definition H0 : list Z :=
  [1779033703; 3144134277; 1013904242; 2773480762;
   1359893119; 2600822924; 528734635; 1541459225].

(** Big-endian bytes of a number, [n] of them. *)
Fixpoint be_bytes (n : nat) (x : Z) : list Z :=
  match n with
  | O => []
  | S n' => (Z.shiftr x (8 * Z.of_nat n')) mod 256 :: be_bytes n' x
  end.

(** The message, a [1] bit, zeros up to 56 modulo 64, the bit length. *)
Definition padding (msg : list Z) : list Z :=
  let len := Z.of_nat (List.length msg) in
  let zeros := Z.to_nat ((55 - len) mod 64) in
  msg ++ [128] ++ repeat 0 zeros ++ be_bytes 8 (8 * len).

(** Big-endian 32-bit words of a byte sequence. *)
Fixpoint words (bs : list Z) : list Z :=
  match bs with
  | a :: b :: c :: d :: rest =>
      (Z.shiftl a 24 + Z.shiftl b 16 + Z.shiftl c 8 + d) :: words rest
  | _ => []
  end.

(** The message schedule: [ws] holds the words so far, latest first. *)
Fixpoint schedule (n : nat) (ws : list Z) : list Z :=
  match n with
  | O => ws
  | S n' =>
      let w i := nth i ws 0 in
      schedule n'
        (add32 (add32 (sigma1 (w 1%nat)) (w 6%nat))
               (add32 (sigma0 (w 14%nat)) (w 15%nat)) :: ws)
  end.

Definition round (st : list Z) (kw : Z * Z) : list Z :=
  match st with
  | [a; b; c; d; e; f; g; h] =>
      let t1 := add32 (add32 (add32 h (Sigma1 e)) (add32 (Ch e f g) (fst kw))) (snd kw) in
      let t2 := add32 (Sigma0 a) (Maj a b c) in
      [add32 t1 t2; a; b; c; add32 d t1; e; f; g]
  | _ => st
  end.

(** One 64-byte block, given as 16 words. *)
Definition compress (st : list Z) (block : list Z) : list Z :=
  let ws := rev (schedule 48 (rev block)) in
  map (fun p => add32 (fst p) (snd p)) (combine st (fold_left round (combine K ws) st)).

Fixpoint blocks (n : nat) (ws : list Z) (st : list Z) : list Z :=
  match n with
  | O => st
  | S n' => blocks n' (skipn 16 ws) (compress st (firstn 16 ws))
  end.

(** [hashlib.sha256(msg).digest()]. *)
Definition sha256 (msg : list byte) : list byte :=
  let ws := words (padding (map bytes.to_Z msg)) in
  map bytes.of_Z
      (flat_map (be_bytes 4) (blocks (Nat.div (List.length ws) 16) ws H0)).

End hashlib.

(** ** JSON values, dictionaries and HTTP messages *)

(** What [response.json()] returns. *)
#[local] Unset Elimination Schemes.
Inductive json : Type :=
| JNull
| JBool (b : bool)
| JInt (n : Z)
| JFloat (mantissa exponent : Z)
| JStr (s : string)
| JArr (items : list json)
| JObj (fields : list (string * json)).
#[local] Set Elimination Schemes.

(** A [dict] with string keys, in insertion order. *)
Definition dict (V : Type) : Type := list (string * V).

Fixpoint dict_get {V} (d : dict V) (key : string) : option V :=
  match d with
  | [] => None
  | (k, v) :: d' => if String.eqb k key then Some v else dict_get d' key
  end.

(** [d[key] = v]: the value of an existing key is replaced where it stands,
    a new key goes last. *)
Fixpoint dict_set {V} (d : dict V) (key : string) (v : V) : dict V :=
  match d with
  | [] => [(key, v)]
  | (k, v') :: d' =>
      if String.eqb k key then (k, v) :: d' else (k, v') :: dict_set d' key v
  end.

(** [v == s] for a string [s]. *)
Definition json_eq_str (v : json) (s : string) : bool :=
  match v with
  | JStr s' => String.eqb s' s
  | _ => false
  end.

(** The keyword arguments of [requests.post]. *)
Record Request : Type := mkRequest {
  url : string;
  data : dict json;
  headers : dict string;
  allow_redirects : bool
}.

(** A [requests.Response]: [body_json] is what [json()] makes of [text],
    [None] when the body does not parse. *)
Record Response : Type := mkResponse {
  status_code : Z;
  text : string;
  body_json : option json
}.

(** The exceptions the function can meet. *)
Inductive exn : Type :=
| HTTPError (response : Response)
| JSONDecodeError
| ValueError
| TypeError
| KeyError (key : string)
| AttributeError
| IndexError
| UnicodeDecodeError
| OverflowError.

(** [isinstance(e, (ValueError, requests.JSONDecodeError))]: of the
    exceptions above the decoding errors are [ValueError]s, [HTTPError] is
    an [OSError] and [OverflowError] an [ArithmeticError]. *)
Definition is_ValueError (e : exn) : bool :=
  match e with
  | ValueError | JSONDecodeError | UnicodeDecodeError => true
  | _ => false
  end.

(** What [print] is given: a literal, or the f-string
    [f"{prefix}{value}"]. *)
Inductive printed : Type :=
| Literal (s : string)
| FString (prefix : string) (value : json).

(** ** Effects and the monad of Python code *)

Variant effect : Type -> Type :=
| Randbelow (n : nat) : effect nat
| Post (req : Request) : effect Response
| Display (out : printed) : effect unit
| Sleep (secs : Z) : effect unit.

(** A computation performs effects and ends with a value or an exception. *)
Definition py (A : Type) : Type := itree effect (exn + A).

Definition ret {A} (x : A) : py A := Ret (inr x).
Definition raise {A} (e : exn) : py A := Ret (inl e).

Definition bind {A B} (m : py A) (k : A -> py B) : py B :=
  ITree.bind m (fun r => match r with inl e => Ret (inl e) | inr x => k x end).

Definition perform {A} (e : effect A) : py A :=
  ITree.bind (ITree.trigger e) (fun x => Ret (inr x)).

Declare Scope py_scope.
Delimit Scope py_scope with py.
Bind Scope py_scope with py.
Notation "x <- m ;; k" := (bind m (fun x => k))
  (at level 61, m at next level, right associativity) : py_scope.
Notation "m ;; k" := (bind m (fun _ => k))
  (at level 61, right associativity) : py_scope.

(** [try: m except (ValueError, requests.JSONDecodeError): handler]. *)
Definition try_except_ValueError {A} (m : py A) (handler : py A) : py A :=
  ITree.bind m (fun r =>
    match r with
    | inl e => if is_ValueError e then handler else Ret (inl e)
    | inr x => Ret (inr x)
    end).

(** How an iteration of [while True] ends: it goes on to the next one (by
    [continue] or by reaching the end of the body) or the function returns. *)
Inductive completion : Type :=
| Next
| Return (v : json).

Definition while_True (body : py completion) : py json :=
  ITree.iter (fun _ : unit =>
    ITree.bind body (fun r =>
      match r with
      | inl e => Ret (inr (inl e))
      | inr Next => Ret (inl tt)
      | inr (Return v) => Ret (inr (inr v))
      end)) tt.

(** [[m for _ in range(n)]], evaluated in order. *)
Fixpoint for_range {A} (n : nat) (m : py A) : py (list A) :=
  match n with
  | O => ret []
  | S n' => (x <- m ;; xs <- for_range n' m ;; ret (x :: xs))%py
  end.

(** [for item in items: acc = body(item, acc)]. *)
Fixpoint for_each {A B} (items : list A) (body : A -> B -> py B) (acc : B) : py B :=
  match items with
  | [] => ret acc
  | item :: rest => (acc' <- body item acc ;; for_each rest body acc')%py
  end.

(** ** Library calls *)

Module secrets.
(** [secrets.choice(seq)] is [seq[randbelow(len(seq))]]. *)
Definition choice (seq : string) : py string :=
  match seq with
  | EmptyString => raise IndexError
  | String _ _ =>
      (i <- perform (Randbelow (String.length seq)) ;;
       match get i seq with
       | Some c => ret (String c EmptyString)
       | None => raise IndexError
       end)%py
  end.
End secrets.

Module requests.
Definition post (url : string) (data : dict json) (headers : dict string)
    (allow_redirects : bool) : py Response :=
  perform (Post (mkRequest url data headers allow_redirects)).

(** [response.raise_for_status()]: an [HTTPError] for the client errors
    400 to 499 and the server errors 500 to 599, nothing otherwise. *)
Definition raise_for_status (response : Response) : py unit :=
  if ((400 <=? status_code response) && (status_code response <? 500))
     || ((500 <=? status_code response) && (status_code response <? 600))
  then raise (HTTPError response)
  else ret tt.

(** [response.json()]. *)
Definition json (response : Response) : py json :=
  match body_json response with
  | Some v => ret v
  | None => raise JSONDecodeError
  end.
End requests.

Module time.
(** [time.sleep(secs)] refuses a negative length. *)
(** [time.sleep] keeps the time as a 64-bit count of nanoseconds: from this
    many seconds on, in either direction, the number does not fit. *)
Definition sleep_limit : Z := 9223372037.

Definition overflows (secs : Z) : bool :=
  (secs <=? - sleep_limit) || (sleep_limit <=? secs).

(** [time.sleep(secs)] for an [int]: [OverflowError] when the number does
    not fit, [ValueError] when it fits and is negative. *)
Definition sleep (secs : Z) : py unit :=
  if overflows secs then raise OverflowError
  else if secs <? 0 then raise ValueError
  else perform (Sleep secs).
End time.

Definition print (out : printed) : py unit := perform (Display out).

(** [obj[key]] for a string [key]. *)
Definition getitem (obj : json) (key : string) : py json :=
  match obj with
  | JObj fields =>
      match dict_get fields key with
      | Some v => ret v
      | None => raise (KeyError key)
      end
  | _ => raise TypeError
  end.

(** [key in obj] for a string [key]. *)
Definition contains (key : string) (obj : json) : py bool :=
  match obj with
  | JObj fields =>
      ret (match dict_get fields key with Some _ => true | None => false end)
  | JArr items => ret (existsb (fun v => json_eq_str v key) items)
  | JStr s => ret (str.contains key s)
  | _ => raise TypeError
  end.

(** [obj.replace(old, new)]: only a [str] has the method. *)
Definition replace_method (obj : json) (old new : string) : py json :=
  match obj with
  | JStr s => ret (JStr (str.replace s old new))
  | _ => raise AttributeError
  end.

(** [bs.decode("utf-8")]. *)
Definition decode_method (bs : list byte) : py string :=
  match bytes.decode bs with
  | Some s => ret s
  | None => raise UnicodeDecodeError
  end.

(** ** The function *)

Definition default_polling_interval : Z := 5.

Definition default_endpoint_rewrite : option (dict string) :=
  Some [("lakekeeper-keycloak:8080", "localhost:30080")].

Definition verifier_alphabet : string :=
  "abcdefghijklmnopqrstuvwxyzABCDEFGHIJKLMNOPQRSTUVWXYZ0123456789".

Definition device_request_data (client_id scope pkce_code_challenge : string) : dict json :=
  let data :=
    [("client_id", JStr client_id);
     ("code_challenge_method", JStr "S256");
     ("code_challenge", JStr pkce_code_challenge)] in
  if negb (String.eqb scope "") then dict_set data "scope" (JStr scope) else data.

Definition request_headers (host_header : option string) : dict string :=
  let headers := [("Content-type", "application/x-www-form-urlencoded")] in
  match host_header with
  | Some h => if negb (String.eqb h "") then dict_set headers "Host" h else headers
  | None => headers
  end.

Definition token_request_data (client_id : string) (device_code : json)
    (pkce_code_verifier : string) : dict json :=
  [("grant_type", JStr "urn:ietf:params:oauth:grant-type:device_code");
   ("client_id", JStr client_id);
   ("device_code", device_code);
   ("code_verifier", JStr pkce_code_verifier)].

(** Lines 41 to 44: the PKCE code verifier. *)
Definition generate_code_verifier : py string :=
  (chars <- for_range 128 (secrets.choice verifier_alphabet) ;;
   ret (str.join "" chars))%py.

(** Lines 45 to 48: the PKCE code challenge of a verifier. *)
Definition code_challenge (pkce_code_verifier : string) : py string :=
  (let pkce_code_challenge := hashlib.sha256 (str.encode pkce_code_verifier) in
   pkce_code_challenge <- decode_method (base64.urlsafe_b64encode pkce_code_challenge) ;;
   ret (str.replace pkce_code_challenge "=" ""))%py.

(** Lines 76 to 80: the rewrites of the verification URL. *)
Definition apply_endpoint_rewrite (endpoint_rewrite : option (dict string))
    (verification_uri_complete : json) : py json :=
  match endpoint_rewrite with
  | Some ((_ :: _) as items) =>
      for_each items
        (fun '(original, replacement) uri => replace_method uri original replacement)
        verification_uri_complete
  | _ => ret verification_uri_complete
  end.

(** Lines 87 to 115: the body of the polling loop. *)
Definition poll (token_endpoint client_id : string) (device_code : json)
    (pkce_code_verifier : string) (headers : dict string) (polling_interval : Z)
  : py completion :=
  (response <- requests.post token_endpoint
                 (token_request_data client_id device_code pkce_code_verifier)
                 headers false ;;
   if status_code response =? 200 then
     print (Literal "Authentication successful") ;;
     v <- requests.json response ;;
     ret (Return v)
   else
     try_except_ValueError
       (error_data <- requests.json response ;;
        has_error <- contains "error" error_data ;;
        pending <- (if has_error : bool
                    then (v <- getitem error_data "error" ;;
                          ret (json_eq_str v "authorization_pending"))
                    else ret false) ;;
        if pending : bool then
          print (Literal "Waiting for authentication to complete...") ;;
          time.sleep polling_interval ;;
          ret Next
        else
          requests.raise_for_status response ;;
          ret Next)
       (requests.raise_for_status response ;;
        ret Next))%py.

Definition authenticate_device_flow_with_pkce
    (token_endpoint device_endpoint client_id : string)
    (scope host_header : option string)
    (polling_interval : Z)
    (endpoint_rewrite : option (dict string)) : py json :=
  (let scope := match scope with None => client_id | Some s => s end in
   pkce_code_verifier <- generate_code_verifier ;;
   pkce_code_challenge <- code_challenge pkce_code_verifier ;;
   let headers := request_headers host_header in
   let data := device_request_data client_id scope pkce_code_challenge in
   response <- requests.post device_endpoint data headers false ;;
   requests.raise_for_status response ;;
   device_response <- requests.json response ;;
   verification_uri_complete <- getitem device_response "verification_uri_complete" ;;
   device_code <- getitem device_response "device_code" ;;
   verification_uri_complete <-
     apply_endpoint_rewrite endpoint_rewrite verification_uri_complete ;;
   print (FString "Please open this URL to authenticate: " verification_uri_complete) ;;
   while_True
     (poll token_endpoint client_id device_code pkce_code_verifier headers
        polling_interval))%py.

(** The call under [if __name__ == "__main__"]. *)
Definition main : py json :=
  authenticate_device_flow_with_pkce
    "http://lakekeeper-keycloak:8080/realms/iceberg/protocol/openid-connect/token"
    "http://lakekeeper-keycloak:8080/realms/iceberg/protocol/openid-connect/auth/device"
    "lakekeeper" (Some "lakekeeper") None default_polling_interval
    default_endpoint_rewrite.

(** ** Runs

    The environment: the numbers the random source will deliver and the
    responses the servers will give, in the order of the requests. *)
Record world : Type := mkWorld {
  entropy : nat -> nat;
  drawn : nat;
  inbox : list Response
}.

(** What a run lets the outside see. *)
Inductive event : Type :=
| Posted (req : Request)
| Printed (out : printed)
| Slept (secs : Z).

(** How far a run got: it ended, or it waits for the response to a request
    the environment has not answered, or the fuel ran out. *)
Inductive outcome (R : Type) : Type :=
| Done (r : R)
| Awaiting (req : Request)
| OutOfFuel.
Arguments Done {R} r.
Arguments Awaiting {R} req.
Arguments OutOfFuel {R}.

Definition result (R : Type) : Type := (list event * outcome R * world * nat)%type.

Definition emit {R} (ev : event) (res : result R) : result R :=
  let '(tr, o, w, f) := res in (ev :: tr, o, w, f).

(** One effect against the environment; [k] runs the rest. *)
Definition handle {R X} (e : effect X) (w : world) (f : nat)
    (k : X -> world -> result R) : result R :=
  match e in effect X return (X -> world -> result R) -> result R with
  | Randbelow n => fun k =>
      k (Nat.modulo (entropy w (drawn w)) n)
        (mkWorld (entropy w) (S (drawn w)) (inbox w))
  | Post req => fun k =>
      match inbox w with
      | [] => ([Posted req], Awaiting req, w, f)
      | response :: rest =>
          emit (Posted req) (k response (mkWorld (entropy w) (drawn w) rest))
      end
  | Display out => fun k => emit (Printed out) (k tt w)
  | Sleep secs => fun k => emit (Slept secs) (k tt w)
  end k.

(** The run of [t] in [w]: every effect and every silent step costs one
    unit of fuel; the fuel left over is returned. *)
Fixpoint run {R} (fuel : nat) (w : world) (t : itree effect R) : result R :=
  match observe t with
  | RetF r => ([], Done r, w, fuel)
  | TauF t' =>
      match fuel with
      | O => ([], OutOfFuel, w, O)
      | S f => run f w t'
      end
  | VisF e k =>
      match fuel with
      | O => ([], OutOfFuel, w, O)
      | S f => handle e w f (fun x w' => run f w' (k x))
      end
  end.

(** Sequencing of runs: the second starts in the world and with the fuel
    the first one left. *)
Definition then_run {R T} (res : result R) (k : R -> world -> nat -> result T)
  : result T :=
  let '(tr, o, w, f) := res in
  match o with
  | Done r => let '(tr', o', w', f') := k r w f in ((tr ++ tr')%list, o', w', f')
  | Awaiting req => (tr, Awaiting req, w, f)
  | OutOfFuel => (tr, OutOfFuel, w, f)
  end.

Definition trace_of {R} (res : result R) : list event := fst (fst (fst res)).
Definition outcome_of {R} (res : result R) : outcome R := snd (fst (fst res)).

Definition finished {R} (o : outcome R) : bool :=
  match o with
  | OutOfFuel => false
  | _ => true
  end.

(** The requests of a trace, in order. *)
Fixpoint requests_of (tr : list event) : list Request :=
  match tr with
  | [] => []
  | Posted req :: tr' => req :: requests_of tr'
  | _ :: tr' => requests_of tr'
  end.

(** The lengths slept in a trace, in order. *)
Fixpoint sleeps_of (tr : list event) : list Z :=
  match tr with
  | [] => []
  | Slept secs :: tr' => secs :: sleeps_of tr'
  | _ :: tr' => sleeps_of tr'
  end.

(** What was printed in a trace, in order. *)
Fixpoint prints_of (tr : list event) : list printed :=
  match tr with
  | [] => []
  | Printed out :: tr' => out :: prints_of tr'
  | _ :: tr' => prints_of tr'
  end.

(** The world after [n] more numbers were drawn. *)
Definition advance (n : nat) (w : world) : world :=
  mkWorld (entropy w) (n + drawn w) (inbox w).

(** The characters [n] draws from [seq] give in [w]. *)
Fixpoint draws (seq : string) (n : nat) (w : world) : list string :=
  match n with
  | O => []
  | S n' =>
      match get (Nat.modulo (entropy w (drawn w)) (String.length seq)) seq with
      | Some c => String c EmptyString :: draws seq n' (advance 1 w)
      | None => []
      end
  end.

(** ** Vocabulary of the properties *)

(** The statuses [raise_for_status] raises on. *)
Definition http_error (r : Response) : bool :=
  (400 <=? status_code r) && (status_code r <? 600).

(** The body is a JSON object whose [error] is the string
    [authorization_pending]. *)
Definition is_pending (r : Response) : bool :=
  match body_json r with
  | Some (JObj fields) =>
      match dict_get fields "error" with
      | Some v => json_eq_str v "authorization_pending"
      | None => false
      end
  | _ => false
  end.

(** The body is a JSON object with an [error] field, or does not parse:
    the responses the loop takes for errors of the token endpoint. *)
Definition is_error_body (r : Response) : bool :=
  match body_json r with
  | Some (JObj fields) =>
      match dict_get fields "error" with
      | Some _ => true
      | None => false
      end
  | Some _ => false
  | None => true
  end.

(** [verification_uri_complete] and [device_code] of a device-code
    response. *)
Definition device_fields (r : Response) : option (json * json) :=
  match body_json r with
  | Some (JObj fields) =>
      match dict_get fields "verification_uri_complete",
            dict_get fields "device_code" with
      | Some uri, Some device_code => Some (uri, device_code)
      | _, _ => None
      end
  | _ => None
  end.

(** The code the server of [w] issues ([None] when its first response
    holds none). *)
Definition device_code_of (w : world) : json :=
  match inbox w with
  | r :: _ =>
      match device_fields r with
      | Some (_, device_code) => device_code
      | None => JNull
      end
  | [] => JNull
  end.

(** The substitutions of a rewrite map on a URL, in the order of the map. *)
Definition rewrite_url (endpoint_rewrite : option (dict string)) (uri : string)
  : string :=
  match endpoint_rewrite with
  | Some items => fold_left (fun u p => str.replace u (fst p) (snd p)) items uri
  | None => uri
  end.

(** What is displayed for a verification URL, [None] when the rewrites
    fail on it. *)
Definition displayed_url (endpoint_rewrite : option (dict string)) (uri : json)
  : option json :=
  match endpoint_rewrite with
  | Some (_ :: _) =>
      match uri with
      | JStr s => Some (JStr (rewrite_url endpoint_rewrite s))
      | _ => None
      end
  | _ => Some uri
  end.

(** What lines 69 to 80 make of the device-code response: an exception, or
    the URL to display and the device code. *)
Definition device_phase (endpoint_rewrite : option (dict string)) (r : Response)
  : exn + json * json :=
  if http_error r then inl (HTTPError r)
  else
    match body_json r with
    | None => inl JSONDecodeError
    | Some (JObj fields) =>
        match dict_get fields "verification_uri_complete" with
        | None => inl (KeyError "verification_uri_complete")
        | Some uri =>
            match dict_get fields "device_code" with
            | None => inl (KeyError "device_code")
            | Some device_code =>
                match displayed_url endpoint_rewrite uri with
                | None => inl AttributeError
                | Some uri' => inr (uri', device_code)
                end
            end
        end
    | Some _ => inl TypeError
    end.

(** The body is JSON of a kind on which the test
    ["error" in error_data and error_data["error"] == ...] fails with a
    [TypeError]. *)
Definition body_type_error (r : Response) : bool :=
  match body_json r with
  | Some (JObj _) => false
  | Some (JArr items) => existsb (fun v => json_eq_str v "error") items
  | Some (JStr s) => str.contains "error" s
  | Some _ => true
  | None => false
  end.

(** What one iteration of the loop shows after its request, and how it
    ends, for the response [r]. *)
Definition poll_events (polling_interval : Z) (r : Response) : list event :=
  if status_code r =? 200 then [Printed (Literal "Authentication successful")]
  else if is_pending r then
    Printed (Literal "Waiting for authentication to complete...")
      :: (if time.overflows polling_interval || (polling_interval <? 0)
          then [] else [Slept polling_interval])
  else [].

Definition poll_completion (polling_interval : Z) (r : Response)
  : exn + completion :=
  if status_code r =? 200 then
    match body_json r with
    | Some v => inr (Return v)
    | None => inl JSONDecodeError
    end
  else if is_pending r then
    if time.overflows polling_interval then inl OverflowError
    else if polling_interval <? 0
         then (if http_error r then inl (HTTPError r) else inr Next)
         else inr Next
  else if body_type_error r then inl TypeError
  else if http_error r then inl (HTTPError r)
  else inr Next.

Definition alnum (c : ascii) : bool :=
  let n := nat_of_ascii c in
  ((48 <=? n) && (n <=? 57) || (65 <=? n) && (n <=? 90)
   || (97 <=? n) && (n <=? 122))%nat.

Fixpoint all_chars (p : ascii -> bool) (s : string) : bool :=
  match s with
  | EmptyString => true
  | String c s' => p c && all_chars p s'
  end.

(** The verifier the function generates in [w]. *)
Definition verifier_of (w : world) : string :=
  str.join "" (draws verifier_alphabet 128 w).

(** The challenge in the words of the specification: the SHA-256 digest of
    the verifier in the URL-safe base64 encoding without padding. *)
Module spec.

Definition urlsafe_alphabet : string :=
  "ABCDEFGHIJKLMNOPQRSTUVWXYZabcdefghijklmnopqrstuvwxyz0123456789-_".

Definition digit (n : Z) : ascii :=
  match get (Z.to_nat n) urlsafe_alphabet with
  | Some c => c
  | None => zero
  end.

Fixpoint base64url_nopad (bs : list byte) : string :=
  match bs with
  | [] => EmptyString
  | [a] =>
      let a := bytes.to_Z a in
      String (digit (Z.shiftr a 2))
        (String (digit (Z.shiftl (Z.land a 3) 4)) EmptyString)
  | [a; b] =>
      let a := bytes.to_Z a in
      let b := bytes.to_Z b in
      String (digit (Z.shiftr a 2))
        (String (digit (Z.lor (Z.shiftl (Z.land a 3) 4) (Z.shiftr b 4)))
           (String (digit (Z.shiftl (Z.land b 15) 2)) EmptyString))
  | a :: b :: c :: rest =>
      let a := bytes.to_Z a in
      let b := bytes.to_Z b in
      let c := bytes.to_Z c in
      String (digit (Z.shiftr a 2))
        (String (digit (Z.lor (Z.shiftl (Z.land a 3) 4) (Z.shiftr b 4)))
           (String (digit (Z.lor (Z.shiftl (Z.land b 15) 2) (Z.shiftr c 6)))
              (String (digit (Z.land c 63)) (base64url_nopad rest))))
  end.

Definition code_challenge_S256 (code_verifier : string) : string :=
  base64url_nopad (hashlib.sha256 (str.encode code_verifier)).

End spec.

Definition resolved_scope (client_id : string) (scope : option string) : string :=
  match scope with
  | None => client_id
  | Some s => s
  end.

(** The device-code request of a run that drew [verifier]. *)
Definition device_request (device_endpoint client_id : string)
    (scope host_header : option string) (verifier : string) : Request :=
  mkRequest device_endpoint
    (device_request_data client_id (resolved_scope client_id scope)
       (spec.code_challenge_S256 verifier))
    (request_headers host_header) false.

(** Its poll requests. *)
Definition token_request (token_endpoint client_id : string)
    (host_header : option string) (device_code : json) (verifier : string)
  : Request :=
  mkRequest token_endpoint (token_request_data client_id device_code verifier)
    (request_headers host_header) false.

(** Header names do not distinguish upper and lower case. *)
Definition lower (c : ascii) : ascii :=
  let n := nat_of_ascii c in
  if ((65 <=? n) && (n <=? 90))%nat then ascii_of_nat (n + 32) else c.

Fixpoint lower_str (s : string) : string :=
  match s with
  | EmptyString => EmptyString
  | String c s' => String (lower c) (lower_str s')
  end.

Fixpoint header (hs : dict string) (name : string) : option string :=
  match hs with
  | [] => None
  | (k, v) :: hs' =>
      if String.eqb (lower_str k) (lower_str name) then Some v else header hs' name
  end.

(** [host_header] is given and is not the empty string: the test
    [if host_header:] of the function. *)
Definition provided (o : option string) : bool :=
  match o with
  | Some s => negb (String.eqb s "")
  | None => false
  end.



(** The one-character string the draw [k] picks. *)
Definition alphabet_char (k : nat) : string :=
  match get k verifier_alphabet with
  | Some c => String c EmptyString
  | None => EmptyString
  end.

Definition world_of {R} (res : result R) : world := snd (fst res).
Definition fuel_of {R} (res : result R) : nat := snd res.

(** ** Scenarios

    Servers to run the function against. *)

Definition quoted (s : string) : string :=
  String "034"%char (s ++ String "034"%char EmptyString).

(** The text of a JSON object whose values are strings. *)
Definition object_text (fields : list (string * string)) : string :=
  "{" ++ str.join ", " (map (fun p => quoted (fst p) ++ ": " ++ quoted (snd p)) fields)
      ++ "}".

Definition object_json (fields : list (string * string)) : json :=
  JObj (map (fun p => (fst p, JStr (snd p))) fields).

Definition json_response (status : Z) (fields : list (string * string)) : Response :=
  mkResponse status (object_text fields) (Some (object_json fields)).

Definition device_granted : Response :=
  json_response 200
    [("device_code", "GmRhmhcxhwAzkoEqiMEg_DnyEysNkuNhszIySk9eS");
     ("user_code", "WDJB-MJHT");
     ("verification_uri", "http://lakekeeper-keycloak:8080/realms/iceberg/device");
     ("verification_uri_complete",
      "http://lakekeeper-keycloak:8080/realms/iceberg/device?user_code=WDJB-MJHT")].

Definition device_refused : Response :=
  json_response 400 [("error", "invalid_client")].

(** A 302 with the fields of a grant in its body. *)
Definition device_moved : Response :=
  json_response 302
    [("device_code", "GmRhmhcxhwAzkoEqiMEg_DnyEysNkuNhszIySk9eS");
     ("verification_uri_complete",
      "http://lakekeeper-keycloak:8080/realms/iceberg/device?user_code=WDJB-MJHT")].

(** A grant whose verification URL is [null]. *)
Definition device_null_uri : Response :=
  mkResponse 200
    ("{" ++ quoted "verification_uri_complete" ++ ": null, "
         ++ quoted "device_code" ++ ": " ++ quoted "code" ++ "}")
    (Some (JObj [("verification_uri_complete", JNull); ("device_code", JStr "code")])).

(** A redirect, as a proxy in front of the server sends one: no body. *)
Definition redirect : Response := mkResponse 302 EmptyString None.

Definition token_pending : Response :=
  json_response 400 [("error", "authorization_pending")].


Definition token_granted : Response :=
  json_response 200 [("access_token", "abc")].

Definition token_denied : Response :=
  json_response 400 [("error", "access_denied")].


(** A rewrite map whose second entry applies to what the first one made. *)
Definition chained_rewrite : option (dict string) :=
  Some [("lakekeeper-keycloak:8080", "localhost:30080"); ("localhost", "127.0.0.1")].

Definition scenario_entropy (i : nat) : nat := (7 * i + 3)%nat.

Definition scenario (responses : list Response) : world :=
  mkWorld scenario_entropy 0 responses.

(** The call of [main] with its defaults. *)
Definition main_run (fuel : nat) (responses : list Response) : result (exn + json) :=
  run fuel (scenario responses) main.

(** ** Vocabulary of the edge cases *)

Definition is_str (v : json) : bool :=
  match v with
  | JStr _ => true
  | _ => false
  end.


(** What the loop prints. *)
Definition loop_message (out : printed) : bool :=
  match out with
  | Literal s =>
      String.eqb s "Waiting for authentication to complete..."
      || String.eqb s "Authentication successful"
  | FString _ _ => false
  end.

(** The characters of the URL-safe base64 alphabet. *)
Definition urlsafe_char (c : ascii) : bool :=
  alnum c || Ascii.eqb c "-" || Ascii.eqb c "_".

(** * Properties *)

Example sha256_abc :
  map bytes.to_Z (hashlib.sha256 (str.encode "abc")) =
  [0xba; 0x78; 0x16; 0xbf; 0x8f; 0x01; 0xcf; 0xea; 0x41; 0x41; 0x40; 0xde; 0x5d; 0xae; 0x22; 0x23;
   0xb0; 0x03; 0x61; 0xa3; 0x96; 0x17; 0x7a; 0x9c; 0xb4; 0x10; 0xff; 0x61; 0xf2; 0x00; 0x15; 0xad].
Proof. vm_compute. reflexivity. Qed.

Example rfc7636_appendix_B :
  option_map (fun s => str.replace s "=" "")
    (bytes.decode (base64.urlsafe_b64encode
       (hashlib.sha256 (str.encode "dBjftJeZ4CVP-mB92K27uhbUJU1p1r_wW1gFWFOEjXk")))) =
  Some "E9Melhoa2OwvFrEMTJguCHaoeK1t8URWbuGJSstw-cM".
Proof. vm_compute. reflexivity. Qed.

(** ** The interpreter *)

Section RunFacts.

Context {R : Type}.

Lemma run_unfold (fuel : nat) (w : world) (t : itree effect R) :
  run fuel w t =
  match observe t with
  | RetF r => ([], Done r, w, fuel)
  | TauF t' =>
      match fuel with
      | O => ([], OutOfFuel, w, O)
      | S f => run f w t'
      end
  | VisF e k =>
      match fuel with
      | O => ([], OutOfFuel, w, O)
      | S f => handle e w f (fun x w' => run f w' (k x))
      end
  end.
Proof. destruct fuel; reflexivity. Qed.

(** A run sees a tree through [observe] only. *)
Lemma run_observe (fuel : nat) (w : world) (t t' : itree effect R) :
  observe t = observe t' -> run fuel w t = run fuel w t'.
Proof. intros H. rewrite !run_unfold, H. reflexivity. Qed.

Lemma run_Ret (fuel : nat) (w : world) (r : R) :
  run fuel w (Ret r) = ([], Done r, w, fuel).
Proof. rewrite run_unfold. reflexivity. Qed.

Lemma run_Tau (fuel : nat) (w : world) (t : itree effect R) :
  run (S fuel) w (Tau t) = run fuel w t.
Proof. reflexivity. Qed.

Lemma then_run_Done (tr : list event) (r : R) (w : world) (f : nat) {T}
    (k : R -> world -> nat -> result T) :
  then_run (tr, Done r, w, f) k = then_run (tr, Done tt, w, f) (fun _ => k r).
Proof. reflexivity. Qed.

Lemma then_run_emit (ev : event) (res : result R) {T}
    (k : R -> world -> nat -> result T) :
  then_run (emit ev res) k = emit ev (then_run res k).
Proof.
  destruct res as [[[tr o] w] f]. cbn. destruct o; try reflexivity.
  destruct (k r w f) as [[[tr' o'] w'] f']. reflexivity.
Qed.

Lemma then_run_nil (r : R) (w : world) (f : nat) {T}
    (k : R -> world -> nat -> result T) :
  then_run ([], Done r, w, f) k = k r w f.
Proof. cbn. destruct (k r w f) as [[[tr' o'] w'] f']. reflexivity. Qed.

Lemma then_run_handle {X} (e : effect X) (w : world) (f : nat)
    (h : X -> world -> result R) {T} (k : R -> world -> nat -> result T) :
  then_run (handle e w f h) k = handle e w f (fun x w' => then_run (h x w') k).
Proof.
  destruct e; cbn.
  - reflexivity.
  - destruct (inbox w); [reflexivity | apply then_run_emit].
  - apply then_run_emit.
  - apply then_run_emit.
Qed.

End RunFacts.

(** The run of a sequence is the sequence of the runs. *)
Lemma run_bind {R T} (fuel : nat) :
  forall (w : world) (t : itree effect R) (k : R -> itree effect T),
    run fuel w (ITree.bind t k) =
    then_run (run fuel w t) (fun r w' f' => run f' w' (k r)).
Proof.
  induction fuel as [|f IH]; intros w t k;
    rewrite (run_unfold _ w (ITree.bind t k)), (run_unfold _ w t);
    change (observe (ITree.bind t k)) with
      (observe (match observe t with
                | RetF r => k r
                | TauF t0 => Tau (ITree.bind t0 k)
                | VisF e ke => Vis e (fun x => ITree.bind (ke x) k)
                end));
    destruct (observe t) as [r|t'|X e h].
  - rewrite then_run_nil, (run_unfold _ w (k r)). reflexivity.
  - reflexivity.
  - reflexivity.
  - rewrite then_run_nil, (run_unfold _ w (k r)). reflexivity.
  - cbn [observe _observe]. apply IH.
  - cbn [observe _observe]. rewrite then_run_handle.
    destruct e; cbn [handle]; try (rewrite IH; reflexivity).
    destruct (inbox w); [reflexivity | rewrite IH; reflexivity].
Qed.

Lemma then_run_ext {R T} (res : result R) (k1 k2 : R -> world -> nat -> result T) :
  (forall r w f, k1 r w f = k2 r w f) -> then_run res k1 = then_run res k2.
Proof.
  intros H. destruct res as [[[tr o] w] f]. cbn. destruct o; try reflexivity.
  rewrite H. reflexivity.
Qed.

Lemma then_run_assoc {R T U} (res : result R)
    (k1 : R -> world -> nat -> result T) (k2 : T -> world -> nat -> result U) :
  then_run (then_run res k1) k2 =
  then_run res (fun r w f => then_run (k1 r w f) k2).
Proof.
  destruct res as [[[tr o] w] f]. cbn. destruct o; try reflexivity.
  destruct (k1 r w f) as [[[tr1 o1] w1] f1]. cbn. destruct o1; try reflexivity.
  destruct (k2 r0 w1 f1) as [[[tr2 o2] w2] f2]. rewrite app_assoc. reflexivity.
Qed.

Lemma handle_ext {R X} (e : effect X) (w : world) (f : nat)
    (k1 k2 : X -> world -> result R) :
  (forall x w', k1 x w' = k2 x w') -> handle e w f k1 = handle e w f k2.
Proof.
  intros H. destruct e; cbn; rewrite ?H; try reflexivity.
  destruct (inbox w); [reflexivity | rewrite H; reflexivity].
Qed.

(** *** Runs of the monad's operations *)

Lemma run_ret {A} (fuel : nat) (w : world) (x : A) :
  run fuel w (ret x) = ([], Done (inr x), w, fuel).
Proof. apply run_Ret. Qed.

Lemma run_raise {A} (fuel : nat) (w : world) (e : exn) :
  run fuel w (@raise A e) = ([], Done (inl e), w, fuel).
Proof. apply run_Ret. Qed.

Lemma run_py_bind {A B} (fuel : nat) (w : world) (m : py A) (k : A -> py B) :
  run fuel w (bind m k) =
  then_run (run fuel w m)
    (fun r w' f' =>
       match r with
       | inl e => ([], Done (inl e), w', f')
       | inr x => run f' w' (k x)
       end).
Proof.
  unfold bind. rewrite run_bind. apply then_run_ext.
  intros [e|x] w' f'; [apply run_Ret | reflexivity].
Qed.

Lemma run_perform {X} (fuel : nat) (w : world) (e : effect X) :
  run (S fuel) w (perform e) =
  handle e w fuel (fun x w' => ([], Done (inr x), w', fuel)).
Proof.
  rewrite run_unfold. cbn [perform observe _observe ITree.bind ITree.subst ITree.trigger].
  apply handle_ext. intros x w'. rewrite run_unfold. reflexivity.
Qed.

Lemma run_perform_O {X} (w : world) (e : effect X) :
  run O w (perform e) = ([], OutOfFuel, w, O).
Proof. reflexivity. Qed.

Lemma run_try_except {A} (fuel : nat) (w : world) (m handler : py A) :
  run fuel w (try_except_ValueError m handler) =
  then_run (run fuel w m)
    (fun r w' f' =>
       match r with
       | inl e => if is_ValueError e then run f' w' handler
                  else ([], Done (inl e), w', f')
       | inr x => ([], Done (inr x), w', f')
       end).
Proof.
  unfold try_except_ValueError. rewrite run_bind. apply then_run_ext.
  intros [e|x] w' f'; [destruct (is_ValueError e); [reflexivity | apply run_Ret] | apply run_Ret].
Qed.

(** One iteration of [while True], then the loop again after a silent
    step. *)
Lemma run_while_True (fuel : nat) (w : world) (body : py completion) :
  run fuel w (while_True body) =
  then_run (run fuel w body)
    (fun r w' f' =>
       match r with
       | inl e => ([], Done (inl e), w', f')
       | inr Next =>
           match f' with
           | O => ([], OutOfFuel, w', O)
           | S f'' => run f'' w' (while_True body)
           end
       | inr (Return v) => ([], Done (inr v), w', f')
       end).
Proof.
  unfold while_True at 1.
  match goal with
  | |- run _ _ (ITree.iter ?step tt) = _ =>
      rewrite (run_observe _ _ _
                 (ITree.bind (step tt)
                    (fun lr => match lr with
                               | inl l => Tau (ITree.iter step l)
                               | inr r => Ret r
                               end))) by reflexivity
  end.
  rewrite !run_bind, then_run_assoc. apply then_run_ext.
  intros [e|[|v]] w' f'; rewrite run_Ret, then_run_nil.
  - apply run_Ret.
  - rewrite run_unfold. cbn [observe _observe]. destruct f'; reflexivity.
  - apply run_Ret.
Qed.

(** ** Strings and the base64 encoding *)

Lemma list_ind3 {A} (P : list A -> Prop) :
  P [] -> (forall a, P [a]) -> (forall a b, P [a; b]) ->
  (forall a b c l, P l -> P (a :: b :: c :: l)) ->
  forall l, P l.
Proof.
  intros H0 H1 H2 H3 l.
  enough (P l /\ (forall a, P (a :: l)) /\ (forall a b, P (a :: b :: l))) by tauto.
  induction l as [|x l [IH0 [IH1 IH2]]]; auto.
Qed.

(** Removing the [=] signs, one character at a time. *)
Lemma replace_pad_cons (c : ascii) (s : string) :
  str.replace (String c s) "=" "" =
  if Ascii.eqb c "=" then str.replace s "=" "" else String c (str.replace s "=" "").
Proof.
  unfold str.replace. cbn [str.replace_from prefix String.length Nat.pred].
  destruct (ascii_dec "=" c) as [<-|Hne].
  - cbn. destruct s; reflexivity.
  - destruct (Ascii.eqb_spec c "="); [congruence | reflexivity].
Qed.

(** A digit of the encoding is an ASCII character, the one the
    specification's alphabet has at its place, and never the padding. *)
Lemma urlsafe_digit_spec (n : Z) :
  (bytes.to_Z (bytes.translate_byte base64.urlsafe_translation (base64.digit n)) <? 128) = true /\
  ascii_of_byte (bytes.translate_byte base64.urlsafe_translation (base64.digit n)) = spec.digit n /\
  Ascii.eqb (spec.digit n) "=" = false.
Proof.
  unfold base64.digit, spec.digit. generalize (Z.to_nat n) as k. intros k.
  do 64 (destruct k as [|k]; [vm_compute; auto|]).
  vm_compute. auto.
Qed.

Lemma decode_ascii (b : byte) (rest : list byte) :
  (bytes.to_Z b <? 128) = true ->
  bytes.decode (b :: rest) = option_map (String (ascii_of_byte b)) (bytes.decode rest).
Proof. intros H. cbn [bytes.decode]. rewrite H. reflexivity. Qed.

Lemma decode_digit (n : Z) (rest : list byte) :
  bytes.decode (bytes.translate_byte base64.urlsafe_translation (base64.digit n) :: rest) =
  option_map (String (spec.digit n)) (bytes.decode rest).
Proof.
  destruct (urlsafe_digit_spec n) as [H1 [H2 _]]. rewrite decode_ascii, H2 by exact H1.
  reflexivity.
Qed.

Lemma decode_pad (rest : list byte) :
  bytes.decode (bytes.translate_byte base64.urlsafe_translation base64.pad :: rest) =
  option_map (String "="%char) (bytes.decode rest).
Proof. apply decode_ascii. reflexivity. Qed.

Lemma replace_digit (n : Z) (s : string) :
  str.replace (String (spec.digit n) s) "=" "" =
  String (spec.digit n) (str.replace s "=" "").
Proof.
  rewrite replace_pad_cons. destruct (urlsafe_digit_spec n) as [_ [_ ->]]. reflexivity.
Qed.

(** The encoding of the function, decoded and with its [=] signs removed,
    is the unpadded encoding of the specification. *)
Lemma urlsafe_b64encode_nopad (bs : list byte) :
  exists s, bytes.decode (base64.urlsafe_b64encode bs) = Some s /\
            str.replace s "=" "" = spec.base64url_nopad bs.
Proof.
  unfold base64.urlsafe_b64encode, bytes.translate.
  induction bs as [|a|a b|a b c l [s [Hd Hr]]] using list_ind3;
    cbn [base64.b64encode spec.base64url_nopad map];
    rewrite ?decode_digit, ?decode_pad.
  - exists EmptyString. split; reflexivity.
  - eexists. split; [reflexivity|].
    rewrite !replace_digit, !replace_pad_cons. reflexivity.
  - eexists. split; [reflexivity|].
    rewrite !replace_digit, !replace_pad_cons. reflexivity.
  - rewrite Hd. eexists. split; [reflexivity|].
    rewrite !replace_digit, Hr. reflexivity.
Qed.

(** ** More fuel changes nothing in a run that has ended *)

Lemma run_more_fuel {R} (k : nat) (fuel : nat) :
  forall (w : world) (t : itree effect R) tr o w' f',
    run fuel w t = (tr, o, w', f') -> finished o = true ->
    run (fuel + k) w t = (tr, o, w', (f' + k)%nat).
Proof.
  induction fuel as [|f IH]; intros w t tr o w' f'; rewrite !run_unfold;
    destruct (observe t) as [r|t'|X e h]; cbn [Nat.add].
  - intros [= <- <- <- <-] _. reflexivity.
  - intros [= <- <- <- <-] [=].
  - intros [= <- <- <- <-] [=].
  - intros [= <- <- <- <-] _. reflexivity.
  - apply IH.
  - destruct e; cbn [handle].
    + apply IH.
    + destruct (inbox w).
      * intros [= <- <- <- <-] _. reflexivity.
      * destruct (run f _ (h r)) as [[[tr1 o1] w1] f1] eqn:E.
        intros [= <- <- <- <-] Hfin. rewrite (IH _ _ _ _ _ _ E Hfin). reflexivity.
    + destruct (run f _ (h tt)) as [[[tr1 o1] w1] f1] eqn:E.
      intros [= <- <- <- <-] Hfin. rewrite (IH _ _ _ _ _ _ E Hfin). reflexivity.
    + destruct (run f _ (h tt)) as [[[tr1 o1] w1] f1] eqn:E.
      intros [= <- <- <- <-] Hfin. rewrite (IH _ _ _ _ _ _ E Hfin). reflexivity.
Qed.

(** A run returns no more fuel than it was given. *)
Lemma run_fuel_le {R} (fuel : nat) :
  forall (w : world) (t : itree effect R) tr o w' f',
    run fuel w t = (tr, o, w', f') -> (f' <= fuel)%nat.
Proof.
  induction fuel as [|f IH]; intros w t tr o w' f'; rewrite !run_unfold;
    destruct (observe t) as [r|t'|X e h];
    try (intros [= <- <- <- <-]; lia).
  - intros H. apply IH in H. lia.
  - destruct e; cbn [handle].
    + intros H. apply IH in H. lia.
    + destruct (inbox w).
      * intros [= <- <- <- <-]. lia.
      * destruct (run f _ (h r)) as [[[tr1 o1] w1] f1] eqn:E.
        intros [= <- <- <- <-]. apply IH in E. lia.
    + destruct (run f _ (h tt)) as [[[tr1 o1] w1] f1] eqn:E.
      intros [= <- <- <- <-]. apply IH in E. lia.
    + destruct (run f _ (h tt)) as [[[tr1 o1] w1] f1] eqn:E.
      intros [= <- <- <- <-]. apply IH in E. lia.
Qed.

(** ** The code verifier *)

Lemma advance_advance (n m : nat) (w : world) :
  advance n (advance m w) = advance (n + m) w.
Proof. unfold advance. cbn. f_equal. lia. Qed.

Lemma advance_O (w : world) : advance 0 w = w.
Proof. destruct w. reflexivity. Qed.

Lemma alphabet_get_lt (m : nat) :
  Nat.ltb m 62 = true ->
  exists c, get m verifier_alphabet = Some c /\ alnum c = true.
Proof.
  do 62 (destruct m as [|m];
         [intros _; eexists; split; reflexivity|]).
  intros H. vm_compute in H. discriminate.
Qed.

Lemma alphabet_get (x : nat) :
  exists c, get (Nat.modulo x (String.length verifier_alphabet)) verifier_alphabet = Some c
            /\ alnum c = true.
Proof.
  apply alphabet_get_lt. apply Nat.ltb_lt.
  change (String.length verifier_alphabet) with 62%nat.
  apply Nat.mod_upper_bound. discriminate.
Qed.

Lemma run_choice (f : nat) (w : world) :
  run (S f) w (secrets.choice verifier_alphabet) =
  ([], Done (inr (hd EmptyString (draws verifier_alphabet 1 w))), advance 1 w, f).
Proof.
  unfold secrets.choice, verifier_alphabet at 1.
  rewrite run_py_bind, run_perform. cbn [handle then_run app].
  fold verifier_alphabet. cbn [draws].
  destruct (alphabet_get (entropy w (drawn w))) as [c [-> _]].
  rewrite run_ret. reflexivity.
Qed.

Lemma draws_S (n : nat) (w : world) :
  draws verifier_alphabet (S n) w =
  hd EmptyString (draws verifier_alphabet 1 w) :: draws verifier_alphabet n (advance 1 w).
Proof.
  cbn [draws]. destruct (alphabet_get (entropy w (drawn w))) as [c [-> _]]. reflexivity.
Qed.

Lemma run_for_range (n : nat) :
  forall (f : nat) (w : world),
    run (n + f) w (for_range n (secrets.choice verifier_alphabet)) =
    ([], Done (inr (draws verifier_alphabet n w)), advance n w, f).
Proof.
  induction n as [|n IH]; intros f w.
  - cbn [for_range Nat.add draws]. rewrite run_ret, advance_O. reflexivity.
  - cbn [for_range Nat.add]. rewrite run_py_bind, run_choice. cbn [then_run app].
    rewrite run_py_bind, IH. cbn [then_run app]. rewrite run_ret.
    rewrite advance_advance, (draws_S n). repeat f_equal. lia.
Qed.

(** Generating the verifier takes 128 draws and shows nothing. *)
Lemma run_generate_code_verifier (f : nat) (w : world) :
  run (128 + f) w generate_code_verifier =
  ([], Done (inr (verifier_of w)), advance 128 w, f).
Proof.
  unfold generate_code_verifier. rewrite run_py_bind, run_for_range.
  cbn [then_run app]. rewrite run_ret. reflexivity.
Qed.

(** The challenge the function computes is the one of the specification. *)
Lemma run_code_challenge (f : nat) (w : world) (v : string) :
  run f w (code_challenge v) = ([], Done (inr (spec.code_challenge_S256 v)), w, f).
Proof.
  unfold code_challenge, decode_method, spec.code_challenge_S256.
  destruct (urlsafe_b64encode_nopad (hashlib.sha256 (str.encode v))) as [s [-> <-]].
  rewrite run_py_bind, run_ret. cbn [then_run app]. rewrite run_ret. reflexivity.
Qed.

Lemma join_empty_cons (p : string) (l : list string) :
  str.join "" (p :: l) = p ++ str.join "" l.
Proof.
  destruct l as [|q l]; cbn [str.join].
  - induction p as [|c p IH]; cbn; [reflexivity | rewrite <- IH; reflexivity].
  - reflexivity.
Qed.

Lemma draws_join (n : nat) :
  forall w, String.length (str.join "" (draws verifier_alphabet n w)) = n /\
            all_chars alnum (str.join "" (draws verifier_alphabet n w)) = true.
Proof.
  induction n as [|n IH]; intros w; [split; reflexivity|].
  cbn [draws]. destruct (alphabet_get (entropy w (drawn w))) as [c [-> Hc]].
  rewrite join_empty_cons. cbn [append String.length all_chars].
  destruct (IH (advance 1 w)) as [-> ->]. rewrite Hc. split; reflexivity.
Qed.

Lemma verifier_length (w : world) : String.length (verifier_of w) = 128%nat.
Proof. apply draws_join. Qed.

Lemma verifier_alnum (w : world) : all_chars alnum (verifier_of w) = true.
Proof. apply draws_join. Qed.

(** ** The statements of the function, one by one *)

Ltac run_simpl :=
  repeat first
    [ rewrite run_py_bind | rewrite run_try_except | rewrite run_ret
    | rewrite run_raise | rewrite run_perform | rewrite run_perform_O
    | rewrite then_run_nil
    | progress cbn [then_run emit handle inbox entropy drawn app] ].

Lemma run_raise_for_status (f : nat) (w : world) (r : Response) :
  run f w (requests.raise_for_status r) =
  ([], Done (if http_error r then inl (HTTPError r) else inr tt), w, f).
Proof.
  unfold requests.raise_for_status, http_error.
  destruct (400 <=? status_code r) eqn:H1, (status_code r <? 500) eqn:H2,
    (500 <=? status_code r) eqn:H3, (status_code r <? 600) eqn:H4;
    cbn [andb orb]; run_simpl; try reflexivity; lia.
Qed.

Lemma run_json (f : nat) (w : world) (r : Response) :
  run f w (requests.json r) =
  ([], Done (match body_json r with
             | Some v => inr v
             | None => inl JSONDecodeError
             end), w, f).
Proof. unfold requests.json. destruct (body_json r); run_simpl; reflexivity. Qed.

Lemma run_getitem (f : nat) (w : world) (obj : json) (key : string) :
  run f w (getitem obj key) =
  ([], Done (match obj with
             | JObj fields =>
                 match dict_get fields key with
                 | Some v => inr v
                 | None => inl (KeyError key)
                 end
             | _ => inl TypeError
             end), w, f).
Proof.
  destruct obj; cbn [getitem]; run_simpl; try reflexivity.
  destruct (dict_get fields key); run_simpl; reflexivity.
Qed.

Lemma run_for_each_replace (items : dict string) :
  forall (f : nat) (w : world) (s : string),
    run f w (for_each items
               (fun '(original, replacement) uri =>
                  replace_method uri original replacement) (JStr s)) =
    ([], Done (inr (JStr (rewrite_url (Some items) s))), w, f).
Proof.
  induction items as [|[original replacement] items IH]; intros f w s;
    cbn [for_each rewrite_url fold_left]; run_simpl; [reflexivity|].
  cbn [replace_method]. run_simpl. rewrite IH. reflexivity.
Qed.

Lemma run_apply_endpoint_rewrite (f : nat) (w : world)
    (endpoint_rewrite : option (dict string)) (uri : json) :
  run f w (apply_endpoint_rewrite endpoint_rewrite uri) =
  ([], Done (match displayed_url endpoint_rewrite uri with
             | Some uri' => inr uri'
             | None => inl AttributeError
             end), w, f).
Proof.
  unfold apply_endpoint_rewrite, displayed_url.
  destruct endpoint_rewrite as [[|[original replacement] items]|];
    run_simpl; try reflexivity.
  destruct uri; try (cbn [for_each replace_method]; run_simpl; reflexivity).
  apply (run_for_each_replace ((original, replacement) :: items)).
Qed.

(** One iteration of the polling loop on the response [r]. *)
Lemma run_poll (token_endpoint client_id : string) (device_code : json)
    (verifier : string) (hs : dict string) (polling_interval : Z)
    (e : nat -> nat) (d : nat) (r : Response) (rest : list Response) (f : nat) :
  run (3 + f) (mkWorld e d (r :: rest))
    (poll token_endpoint client_id device_code verifier hs polling_interval) =
  (Posted (mkRequest token_endpoint
             (token_request_data client_id device_code verifier) hs false)
     :: poll_events polling_interval r,
   Done (poll_completion polling_interval r),
   mkWorld e d rest,
   (2 - List.length (poll_events polling_interval r) + f)%nat).
Proof.
  unfold poll, requests.post, print, time.sleep, poll_events, poll_completion,
    is_pending, body_type_error.
  cbn [Nat.add]. run_simpl.
  destruct (status_code r =? 200) eqn:Hs.
  - run_simpl. rewrite run_json. destruct (body_json r); run_simpl; reflexivity.
  - run_simpl. rewrite run_json.
    destruct (body_json r) as [[| | | | |items|fields]|];
      cbn [then_run is_ValueError contains getitem app]; run_simpl;
      rewrite ?run_raise_for_status;
      try (destruct (http_error r); run_simpl; reflexivity).
    + destruct (str.contains "error" s); cbn [getitem]; run_simpl;
        rewrite ?run_raise_for_status;
        destruct (http_error r); run_simpl; reflexivity.
    + destruct (existsb _ items); cbn [getitem]; run_simpl;
        rewrite ?run_raise_for_status;
        destruct (http_error r); run_simpl; reflexivity.
    + destruct (dict_get fields "error") as [v|]; run_simpl.
      * destruct (json_eq_str v "authorization_pending"); run_simpl.
        -- destruct (time.overflows polling_interval), (polling_interval <? 0);
             cbn [andb negb orb is_ValueError]; run_simpl;
             rewrite ?run_raise_for_status;
             destruct (http_error r); run_simpl; reflexivity.
        -- rewrite run_raise_for_status. destruct (http_error r); run_simpl; reflexivity.
      * rewrite run_raise_for_status. destruct (http_error r); run_simpl; reflexivity.
Qed.

(** ** The whole function *)

Section Flow.

Variables token_endpoint device_endpoint client_id : string.
Variables scope host_header : option string.
Variable polling_interval : Z.
Variable endpoint_rewrite : option (dict string).

Let flow : py json :=
  authenticate_device_flow_with_pkce token_endpoint device_endpoint client_id
    scope host_header polling_interval endpoint_rewrite.

Let device_req (w : world) : Request :=
  device_request device_endpoint client_id scope host_header (verifier_of w).

Let token_req (w : world) (device_code : json) : Request :=
  token_request token_endpoint client_id host_header device_code (verifier_of w).

Let loop (w : world) (device_code : json) : py json :=
  while_True
    (poll token_endpoint client_id device_code (verifier_of w)
       (request_headers host_header) polling_interval).

(** Up to the loop: 128 draws, the device-code request, the display. *)
Lemma run_flow (f : nat) (w : world) :
  run (130 + f) w flow =
  match inbox w with
  | [] => ([Posted (device_req w)], Awaiting (device_req w), advance 128 w, S f)
  | r :: rest =>
      let w1 := mkWorld (entropy w) (128 + drawn w) rest in
      emit (Posted (device_req w))
        match device_phase endpoint_rewrite r with
        | inl e => ([], Done (inl e), w1, S f)
        | inr (uri, device_code) =>
            emit (Printed (FString "Please open this URL to authenticate: " uri))
              (run f w1 (loop w device_code))
        end
  end.
Proof.
  unfold flow, authenticate_device_flow_with_pkce.
  rewrite run_py_bind.
  change (130 + f)%nat with (128 + (2 + f))%nat.
  rewrite run_generate_code_verifier. cbn [then_run app].
  rewrite run_py_bind, run_code_challenge. cbn [then_run app].
  unfold requests.post, print. change (2 + f)%nat with (S (S f)). run_simpl.
  unfold advance at 1. cbn [inbox].
  destruct (inbox w) as [|r rest] eqn:Hin; [reflexivity|].
  run_simpl. rewrite run_raise_for_status. unfold device_phase.
  destruct (http_error r); run_simpl; [reflexivity|].
  rewrite run_json.
  destruct (body_json r) as [[| | | | |items|fields]|];
    run_simpl; try reflexivity; try (rewrite run_getitem; reflexivity).
  rewrite run_getitem.
  destruct (dict_get fields "verification_uri_complete") as [uri|];
    run_simpl; [|reflexivity].
  rewrite run_getitem.
  destruct (dict_get fields "device_code") as [device_code|];
    run_simpl; [|reflexivity].
  rewrite run_apply_endpoint_rewrite.
  destruct (displayed_url endpoint_rewrite uri) as [uri'|];
    run_simpl; [|reflexivity].
  fold (loop w device_code).
  destruct (run f _ (loop w device_code)) as [[[tr o] w'] f'].
  reflexivity.
Qed.

End Flow.

(** ** The polling loop *)

Lemma requests_of_app (tr1 tr2 : list event) :
  requests_of (tr1 ++ tr2) = (requests_of tr1 ++ requests_of tr2)%list.
Proof.
  induction tr1 as [|[req|out|secs] tr1 IH]; cbn [requests_of app]; rewrite ?IH; reflexivity.
Qed.

Lemma sleeps_of_app (tr1 tr2 : list event) :
  sleeps_of (tr1 ++ tr2) = (sleeps_of tr1 ++ sleeps_of tr2)%list.
Proof.
  induction tr1 as [|[req|out|secs] tr1 IH]; cbn [sleeps_of app]; rewrite ?IH; reflexivity.
Qed.

Lemma prints_of_app (tr1 tr2 : list event) :
  prints_of (tr1 ++ tr2) = (prints_of tr1 ++ prints_of tr2)%list.
Proof.
  induction tr1 as [|[req|out|secs] tr1 IH]; cbn [prints_of app]; rewrite ?IH; reflexivity.
Qed.

Lemma poll_events_requests (polling_interval : Z) (r : Response) :
  requests_of (poll_events polling_interval r) = [].
Proof.
  unfold poll_events.
  destruct (status_code r =? 200), (is_pending r),
    (time.overflows polling_interval), (polling_interval <? 0); reflexivity.
Qed.

Lemma poll_events_sleeps (polling_interval : Z) (r : Response) :
  Forall (eq polling_interval) (sleeps_of (poll_events polling_interval r)).
Proof.
  unfold poll_events.
  destruct (status_code r =? 200), (is_pending r),
    (time.overflows polling_interval), (polling_interval <? 0);
    cbn; auto.
Qed.

(** A pending response that is not a 200 makes the iteration sleep and go
    on; with a sound interval nothing else does both. *)
Lemma sound_interval (polling_interval : Z) :
  0 <= polling_interval < time.sleep_limit ->
  time.overflows polling_interval = false /\ (polling_interval <? 0) = false.
Proof.
  unfold time.overflows, time.sleep_limit. intros H. split.
  - apply orb_false_iff. split; [apply Z.leb_gt | apply Z.leb_gt]; lia.
  - apply Z.ltb_ge. lia.
Qed.

Lemma poll_pending (polling_interval : Z) (r : Response) :
  0 <= polling_interval < time.sleep_limit ->
  status_code r <> 200 -> is_pending r = true ->
  poll_events polling_interval r =
    [Printed (Literal "Waiting for authentication to complete...");
     Slept polling_interval] /\
  poll_completion polling_interval r = inr Next.
Proof.
  intros Hpi Hs Hp. unfold poll_events, poll_completion. rewrite Hp.
  destruct (Z.eqb_spec (status_code r) 200); [contradiction|].
  destruct (sound_interval _ Hpi) as [-> ->]. split; reflexivity.
Qed.

Section Loop.

Variables token_endpoint client_id : string.
Variable device_code : json.
Variable verifier : string.
Variable hs : dict string.
Variable polling_interval : Z.

Let req : Request :=
  mkRequest token_endpoint (token_request_data client_id device_code verifier)
    hs false.

Let loop : py json :=
  while_True (poll token_endpoint client_id device_code verifier hs polling_interval).

(** The server has not answered: the loop waits on its request. *)
Lemma run_loop_nil (e : nat -> nat) (d f : nat) :
  run (S f) (mkWorld e d []) loop = ([Posted req], Awaiting req, mkWorld e d [], f).
Proof.
  unfold loop. rewrite run_while_True.
  unfold poll at 1, requests.post. run_simpl. reflexivity.
Qed.

(** One response: the iteration ends the function, or the loop goes on
    with the responses that remain. *)
Lemma run_loop_cons (e : nat -> nat) (d f : nat) (r : Response)
    (rest : list Response) :
  run (4 + f) (mkWorld e d (r :: rest)) loop =
  let events := Posted req :: poll_events polling_interval r in
  let f' := (2 - List.length (poll_events polling_interval r) + f)%nat in
  match poll_completion polling_interval r with
  | inl ex => (events, Done (inl ex), mkWorld e d rest, S f')
  | inr (Return v) => (events, Done (inr v), mkWorld e d rest, S f')
  | inr Next => then_run (events, Done tt, mkWorld e d rest, f')
                  (fun _ w f => run f w loop)
  end.
Proof.
  unfold loop at 1. rewrite run_while_True.
  change (4 + f)%nat with (3 + S f)%nat. rewrite run_poll.
  cbn [then_run].
  replace (2 - List.length (poll_events polling_interval r) + S f)%nat
    with (S (2 - List.length (poll_events polling_interval r) + f)) by lia.
  destruct (poll_completion polling_interval r) as [ex|[|v]];
    rewrite ?app_nil_r; reflexivity.
Qed.

(** The shape of a run of the loop that has ended: one or more requests,
    all the same; every sleep lasts [polling_interval]; and the loop ends
    the function only on a response that is a 200 or is not pending. *)
Lemma loop_shape (rs : list Response) :
  forall fuel e d tr o w' f',
    run fuel (mkWorld e d rs) loop = (tr, o, w', f') -> finished o = true ->
    (exists n, requests_of tr = repeat req (S n)) /\
    Forall (eq polling_interval) (sleeps_of tr) /\
    (forall x, o = Done x -> 0 <= polling_interval < time.sleep_limit ->
               Exists (fun r => status_code r = 200 \/ is_pending r = false) rs).
Proof.
  induction rs as [|r rest IH]; intros fuel e d tr o w' f' Hrun Hfin;
    apply (run_more_fuel 4) in Hrun; [|exact Hfin| |exact Hfin];
    rewrite Nat.add_comm in Hrun.
  - change (4 + fuel)%nat with (S (3 + fuel)) in Hrun. rewrite run_loop_nil in Hrun.
    injection Hrun as <- <- <- _. repeat split.
    + exists 0%nat. reflexivity.
    + constructor.
    + intros x [=].
  - rewrite run_loop_cons in Hrun. cbv zeta in Hrun.
    assert (Hstop : poll_completion polling_interval r <> inr Next ->
                    0 <= polling_interval < time.sleep_limit ->
                    status_code r = 200 \/ is_pending r = false).
    { intros Hc Hpi. destruct (Z.eq_dec (status_code r) 200) as [|Hs]; [auto|].
      destruct (is_pending r) eqn:Hp; [|auto].
      destruct (poll_pending _ _ Hpi Hs Hp) as [_ Hn]. contradiction. }
    destruct (poll_completion polling_interval r) as [ex|[|v]] eqn:Hc.
    + injection Hrun as <- <- <- _. repeat split.
      * exists 0%nat. cbn [requests_of]. rewrite poll_events_requests. reflexivity.
      * cbn [sleeps_of]. apply poll_events_sleeps.
      * intros x _ Hpi. left. apply Hstop; [discriminate | exact Hpi].
    + cbn [then_run] in Hrun.
      destruct (run _ _ loop) as [[[tr2 o2] w2] f2] eqn:Hrest.
      injection Hrun as <- <- <- Hf.
      destruct (IH _ _ _ _ _ _ _ Hrest Hfin) as [[n Hn] [Hsl Hex]].
      repeat split.
      * exists (S n). cbn [requests_of app].
        rewrite requests_of_app, poll_events_requests, Hn. reflexivity.
      * cbn [sleeps_of app]. rewrite sleeps_of_app. apply Forall_app. split.
        -- apply poll_events_sleeps.
        -- exact Hsl.
      * intros x Hx Hpi. right. eapply Hex; eauto.
    + injection Hrun as <- <- <- _. repeat split.
      * exists 0%nat. cbn [requests_of]. rewrite poll_events_requests. reflexivity.
      * cbn [sleeps_of]. apply poll_events_sleeps.
      * intros x _ Hpi. left. apply Hstop; [discriminate | exact Hpi].
Qed.

End Loop.

(** ** The runs of the function that have ended *)

Lemma device_phase_inr (endpoint_rewrite : option (dict string)) (r : Response)
    (uri' device_code : json) :
  device_phase endpoint_rewrite r = inr (uri', device_code) ->
  http_error r = false /\
  exists uri, device_fields r = Some (uri, device_code) /\
              displayed_url endpoint_rewrite uri = Some uri'.
Proof.
  unfold device_phase, device_fields. destruct (http_error r); [discriminate|].
  destruct (body_json r) as [[| | | | |items|fields]|]; try discriminate.
  destruct (dict_get fields "verification_uri_complete") as [uri|]; [|discriminate].
  destruct (dict_get fields "device_code") as [dc|]; [|discriminate].
  destruct (displayed_url endpoint_rewrite uri) as [u|] eqn:Hu; [|discriminate].
  intros [= <- <-]. split; [reflexivity|]. exists uri. split; [reflexivity | exact Hu].
Qed.

Section Runs.

Variables token_endpoint device_endpoint client_id : string.
Variables scope host_header : option string.
Variable polling_interval : Z.
Variable endpoint_rewrite : option (dict string).

Let flow : py json :=
  authenticate_device_flow_with_pkce token_endpoint device_endpoint client_id
    scope host_header polling_interval endpoint_rewrite.

Let device_req (w : world) : Request :=
  device_request device_endpoint client_id scope host_header (verifier_of w).

Let token_req (w : world) (device_code : json) : Request :=
  token_request token_endpoint client_id host_header device_code (verifier_of w).

(** A run that has ended waits for the device-code response, or failed on
    it, or displayed the URL and polled at least once. *)
Lemma flow_cases (fuel : nat) (w : world) tr o w' f' :
  run fuel w flow = (tr, o, w', f') -> finished o = true ->
  (inbox w = [] /\ tr = [Posted (device_req w)] /\ o = Awaiting (device_req w))
  \/ (exists r rest e,
        inbox w = r :: rest /\ device_phase endpoint_rewrite r = inl e /\
        tr = [Posted (device_req w)] /\ o = Done (inl e))
  \/ (exists r rest uri device_code tr_loop n,
        inbox w = r :: rest /\
        device_phase endpoint_rewrite r = inr (uri, device_code) /\
        tr = Posted (device_req w)
               :: Printed (FString "Please open this URL to authenticate: " uri)
               :: tr_loop /\
        requests_of tr_loop = repeat (token_req w device_code) (S n) /\
        Forall (eq polling_interval) (sleeps_of tr_loop) /\
        (forall x, o = Done x -> 0 <= polling_interval < time.sleep_limit ->
                   Exists (fun r => status_code r = 200 \/ is_pending r = false)
                     rest)).
Proof.
  intros Hrun Hfin. apply (run_more_fuel 130) in Hrun; [|exact Hfin].
  rewrite Nat.add_comm in Hrun. unfold flow in Hrun. rewrite run_flow in Hrun.
  fold (device_req w) in Hrun.
  destruct (inbox w) as [|r rest] eqn:Hin.
  - injection Hrun as <- <- _ _. left. auto.
  - right. cbv zeta in Hrun.
    destruct (device_phase endpoint_rewrite r) as [e|[uri device_code]] eqn:Hd.
    + injection Hrun as <- <- _ _. left. exists r, rest, e. auto.
    + right.
      destruct (run fuel _ (while_True _)) as [[[tr2 o2] w2] f2] eqn:Hloop.
      injection Hrun as <- <- _ _.
      destruct (loop_shape _ _ _ _ _ _ _ _ _ _ _ _ _ _ Hloop Hfin)
        as [[n Hn] [Hsl Hex]].
      exists r, rest, uri, device_code, tr2, n. repeat split; auto.
Qed.

(** The code polled with is the one the server issued. *)
Lemma device_phase_code (w : world) (r : Response) (rest : list Response)
    (uri device_code : json) :
  inbox w = r :: rest ->
  device_phase endpoint_rewrite r = inr (uri, device_code) ->
  device_code_of w = device_code.
Proof.
  intros Hin Hd. apply device_phase_inr in Hd as [_ [u [Hf _]]].
  unfold device_code_of. rewrite Hin, Hf. reflexivity.
Qed.

(** The requests of a run that has ended: the device-code request, then
    the same poll request any number of times. *)
Lemma flow_requests (fuel : nat) (w : world) tr o w' f' :
  run fuel w flow = (tr, o, w', f') -> finished o = true ->
  exists n, requests_of tr = device_req w :: repeat (token_req w (device_code_of w)) n.
Proof.
  intros Hrun Hfin.
  destruct (flow_cases _ _ _ _ _ _ Hrun Hfin)
    as [(_ & -> & _) | [(r & rest & e & _ & _ & -> & _)
                       | (r & rest & uri & dc & tr2 & n & Hin & Hd & -> & Hn & _)]].
  - exists 0%nat. reflexivity.
  - exists 0%nat. reflexivity.
  - exists (S n). cbn [requests_of]. rewrite Hn, (device_phase_code _ _ _ _ _ Hin Hd).
    reflexivity.
Qed.

(** A run that returned a value polled at least once. *)
Lemma flow_returned (fuel : nat) (w : world) tr v w' f' :
  run fuel w flow = (tr, Done (inr v), w', f') ->
  exists n, requests_of tr =
              device_req w :: repeat (token_req w (device_code_of w)) (S n).
Proof.
  intros Hrun.
  destruct (flow_cases _ _ _ _ _ _ Hrun eq_refl)
    as [(_ & _ & [=]) | [(r & rest & e & _ & _ & _ & [=])
                       | (r & rest & uri & dc & tr2 & n & Hin & Hd & -> & Hn & _)]].
  exists n. cbn [requests_of]. rewrite Hn, (device_phase_code _ _ _ _ _ Hin Hd).
  reflexivity.
Qed.

End Runs.

(** ** Pending responses *)



Section Pending.

Variables token_endpoint client_id : string.
Variable device_code : json.
Variable verifier : string.
Variable hs : dict string.
Variable polling_interval : Z.
Let req : Request :=
  mkRequest token_endpoint (token_request_data client_id device_code verifier)
    hs false.

Let loop : py json :=
  while_True (poll token_endpoint client_id device_code verifier hs polling_interval).


End Pending.

Section FlowPending.

Variables token_endpoint device_endpoint client_id : string.
Variables scope host_header : option string.
Variable polling_interval : Z.
Variable endpoint_rewrite : option (dict string).
Let flow : py json :=
  authenticate_device_flow_with_pkce token_endpoint device_endpoint client_id
    scope host_header polling_interval endpoint_rewrite.

Let device_req (w : world) : Request :=
  device_request device_endpoint client_id scope host_header (verifier_of w).

Let token_req (w : world) (device_code : json) : Request :=
  token_request token_endpoint client_id host_header device_code (verifier_of w).

Let loop (w : world) (device_code : json) : py json :=
  while_True
    (poll token_endpoint client_id device_code (verifier_of w)
       (request_headers host_header) polling_interval).





End FlowPending.

(** ** Results of runs *)

Lemma trace_of_emit {R} (ev : event) (res : result R) :
  trace_of (emit ev res) = ev :: trace_of res.
Proof. destruct res as [[[tr o] w] f]. reflexivity. Qed.

Lemma outcome_of_emit {R} (ev : event) (res : result R) :
  outcome_of (emit ev res) = outcome_of res.
Proof. destruct res as [[[tr o] w] f]. reflexivity. Qed.


(** ** The requests *)

Lemma request_headers_content_type (host_header : option string) :
  header (request_headers host_header) "Content-Type"
    = Some "application/x-www-form-urlencoded".
Proof.
  unfold request_headers. destruct host_header as [h|]; [|reflexivity].
  destruct (String.eqb h ""); reflexivity.
Qed.

Lemma request_headers_host (host_header : option string) :
  header (request_headers host_header) "Host"
    = if provided host_header then host_header else None.
Proof.
  unfold request_headers, provided. destruct host_header as [h|]; [|reflexivity].
  destruct (String.eqb h ""); reflexivity.
Qed.

Lemma draws_map (n : nat) :
  forall w,
    draws verifier_alphabet n w =
    map (fun i => alphabet_char
                    (Nat.modulo (entropy w (drawn w + i)) 62))
        (seq 0 n).
Proof.
  induction n as [|n IH]; intros w; [reflexivity|].
  cbn [draws seq map]. unfold alphabet_char at 1.
  change (String.length verifier_alphabet) with 62%nat.
  rewrite Nat.add_0_r.
  destruct (alphabet_get (entropy w (drawn w))) as [c [Hc _]].
  change (String.length verifier_alphabet) with 62%nat in Hc. rewrite Hc.
  f_equal. rewrite IH, <- seq_shift, map_map. apply map_ext. intros i.
  cbn [advance entropy drawn]. do 3 f_equal. lia.
Qed.

(** C8: a scope that is absent is resolved to the client id, and the body
    of the device-code request, which goes out form-encoded to the device
    endpoint, holds exactly [client_id], [code_challenge_method] with the
    value [S256] and [code_challenge], followed by [scope] when the
    resolved scope is set (is not empty). *)
Theorem C8_device_request_body
    (token_endpoint device_endpoint client_id : string)
    (scope host_header : option string) (polling_interval : Z)
    (endpoint_rewrite : option (dict string)) (f : nat) (w : world) :
  let s := match scope with None => client_id | Some s => s end in
  exists req : Request,
    hd_error
      (trace_of
         (run (130 + f) w
            (authenticate_device_flow_with_pkce token_endpoint device_endpoint
               client_id scope host_header polling_interval endpoint_rewrite)))
      = Some (Posted req) /\
    url req = device_endpoint /\
    header (headers req) "Content-Type" = Some "application/x-www-form-urlencoded" /\
    data req =
      ([("client_id", JStr client_id);
        ("code_challenge_method", JStr "S256");
        ("code_challenge", JStr (spec.code_challenge_S256 (verifier_of w)))]
         ++ (if String.eqb s "" then [] else [("scope", JStr s)]))%list.
Proof.
  intros s.
  exists (device_request device_endpoint client_id scope host_header (verifier_of w)).
  split; [|split; [reflexivity|split]].
  - rewrite run_flow. destruct (inbox w) as [|r rest]; [reflexivity|].
    cbv zeta. rewrite trace_of_emit. reflexivity.
  - apply request_headers_content_type.
  - unfold device_request, device_request_data, resolved_scope. cbn [data].
    fold s. destruct (String.eqb s ""); reflexivity.
Qed.

(** C9: every request of a run, the device-code request and each poll,
    carries [Content-Type: application/x-www-form-urlencoded] (header names
    compared without case), carries a [Host] header exactly when
    [host_header] is given and not empty, with that value, and is sent with
    redirects not followed. *)
Theorem C9_request_headers
    (token_endpoint device_endpoint client_id : string)
    (scope host_header : option string) (polling_interval : Z)
    (endpoint_rewrite : option (dict string))
    (fuel : nat) (w : world) (tr : list event) (o : outcome (exn + json))
    (w' : world) (f' : nat) :
  run fuel w
    (authenticate_device_flow_with_pkce token_endpoint device_endpoint client_id
       scope host_header polling_interval endpoint_rewrite) = (tr, o, w', f') ->
  finished o = true ->
  requests_of tr <> [] /\
  Forall
    (fun req =>
       header (headers req) "Content-Type" = Some "application/x-www-form-urlencoded" /\
       header (headers req) "Host" = (if provided host_header then host_header else None) /\
       allow_redirects req = false)
    (requests_of tr).
Proof.
  intros Hrun Hfin. destruct (flow_requests _ _ _ _ _ _ _ _ _ _ _ _ _ Hrun Hfin) as [n ->].
  split; [discriminate|]. constructor.
  - repeat split; [apply request_headers_content_type | apply request_headers_host].
  - apply Forall_forall. intros req Hreq. apply repeat_spec in Hreq. subst req.
    repeat split; [apply request_headers_content_type | apply request_headers_host].
Qed.

Lemma C9_request_headers_witness :
  requests_of
    (trace_of (main_run 200 [device_granted; token_pending; token_pending; token_granted]))
    <> [] /\
  Forall
    (fun req =>
       header (headers req) "Content-Type" = Some "application/x-www-form-urlencoded" /\
       header (headers req) "Host" = (if provided None then None else None) /\
       allow_redirects req = false)
    (requests_of
       (trace_of
          (main_run 200 [device_granted; token_pending; token_pending; token_granted]))).
Proof.
  eapply (C9_request_headers
            "http://lakekeeper-keycloak:8080/realms/iceberg/protocol/openid-connect/token"
            "http://lakekeeper-keycloak:8080/realms/iceberg/protocol/openid-connect/auth/device"
            "lakekeeper" (Some "lakekeeper") None default_polling_interval
            default_endpoint_rewrite 200
            (scenario [device_granted; token_pending; token_pending; token_granted])).
  - vm_compute. reflexivity.
  - vm_compute. reflexivity.
Defined.

(** ** [str.replace] *)

Lemma prefix_app (old rest : string) : prefix old (old ++ rest) = true.
Proof.
  induction old as [|c old IH]; [destruct rest; reflexivity|]. cbn [append prefix].
  destruct (ascii_dec c c) as [_|Hc]; [exact IH | contradiction].
Qed.

Lemma replace_from_skip (old new a b : string) :
  str.replace_from old new (String.length a) (a ++ b) = str.replace_from old new 0 b.
Proof.
  induction a as [|c a IH]; [destruct b; reflexivity|].
  cbn [append String.length str.replace_from]. exact IH.
Qed.

(** An occurrence at the front is replaced, and the scan goes on after it. *)
Lemma replace_match (old new rest : string) :
  old <> EmptyString ->
  str.replace (old ++ rest) old new = new ++ str.replace rest old new.
Proof.
  intros Hold. destruct old as [|c old]; [contradiction|].
  unfold str.replace. cbn [append str.replace_from].
  change (String c (old ++ rest)) with (String c old ++ rest).
  rewrite prefix_app. cbn [String.length Nat.pred].
  rewrite replace_from_skip. reflexivity.
Qed.

(** A character where no occurrence starts is kept. *)
Lemma replace_keep (old new : string) (c : ascii) (s : string) :
  old <> EmptyString -> prefix old (String c s) = false ->
  str.replace (String c s) old new = String c (str.replace s old new).
Proof.
  intros Hold Hp. destruct old as [|c' old]; [contradiction|].
  unfold str.replace. cbn [str.replace_from]. rewrite Hp. reflexivity.
Qed.

(** A string in which [old] does not occur stays as it is. *)
Lemma replace_absent (old new s : string) :
  old <> EmptyString -> str.contains old s = false -> str.replace s old new = s.
Proof.
  intros Hold. induction s as [|c s IH]; intros Hc.
  - destruct old; [contradiction | reflexivity].
  - cbn [str.contains] in Hc. apply orb_false_iff in Hc as [Hp Hc].
    rewrite replace_keep, IH; auto.
Qed.

(** ** The displayed URL *)

Lemma displayed_url_str (endpoint_rewrite : option (dict string)) (s : string) :
  displayed_url endpoint_rewrite (JStr s) = Some (JStr (rewrite_url endpoint_rewrite s)).
Proof.
  destruct endpoint_rewrite as [[|p items]|]; reflexivity.
Qed.

Lemma device_phase_ok (endpoint_rewrite : option (dict string)) (r : Response)
    (s : string) (device_code : json) :
  http_error r = false -> device_fields r = Some (JStr s, device_code) ->
  device_phase endpoint_rewrite r
    = inr (JStr (rewrite_url endpoint_rewrite s), device_code).
Proof.
  unfold device_phase, device_fields. intros ->.
  destruct (body_json r) as [[| | | | |items|fields]|]; try discriminate.
  destruct (dict_get fields "verification_uri_complete") as [uri|]; [|discriminate].
  destruct (dict_get fields "device_code") as [dc|]; [|discriminate].
  intros [= -> ->]. rewrite displayed_url_str. reflexivity.
Qed.

(** C10: when the caller leaves [endpoint_rewrite] out, the map is the
    non-empty default of the signature, and the URL displayed is the
    verification URL of the server with [lakekeeper-keycloak:8080] replaced
    by [localhost:30080]: an occurrence at the front of what is left is
    replaced and the scan goes on behind it, a character where none starts
    is kept, and a URL without an occurrence is displayed as it is. *)
Theorem C10_default_endpoint_rewrite
    (token_endpoint device_endpoint client_id : string)
    (scope host_header : option string) (polling_interval : Z)
    (f : nat) (w : world) (r : Response) (rest : list Response)
    (s : string) (device_code : json) :
  inbox w = r :: rest -> http_error r = false ->
  device_fields r = Some (JStr s, device_code) ->
  default_endpoint_rewrite = Some [("lakekeeper-keycloak:8080", "localhost:30080")] /\
  nth_error
    (trace_of
       (run (130 + f) w
          (authenticate_device_flow_with_pkce token_endpoint device_endpoint
             client_id scope host_header polling_interval default_endpoint_rewrite)))
    1
  = Some (Printed
            (FString "Please open this URL to authenticate: "
               (JStr (str.replace s "lakekeeper-keycloak:8080" "localhost:30080")))) /\
  (forall s' : string,
      str.replace ("lakekeeper-keycloak:8080" ++ s') "lakekeeper-keycloak:8080"
        "localhost:30080"
      = "localhost:30080"
          ++ str.replace s' "lakekeeper-keycloak:8080" "localhost:30080") /\
  (forall (c : ascii) (s' : string),
      prefix "lakekeeper-keycloak:8080" (String c s') = false ->
      str.replace (String c s') "lakekeeper-keycloak:8080" "localhost:30080"
      = String c (str.replace s' "lakekeeper-keycloak:8080" "localhost:30080")) /\
  (forall s' : string,
      str.contains "lakekeeper-keycloak:8080" s' = false ->
      str.replace s' "lakekeeper-keycloak:8080" "localhost:30080" = s').
Proof.
  intros Hin Herr Hfields. split; [reflexivity|]. split; [|split; [|split]].
  - rewrite run_flow, Hin. cbv zeta.
    rewrite (device_phase_ok _ _ _ _ Herr Hfields), !trace_of_emit. reflexivity.
  - intros s'. apply replace_match. discriminate.
  - intros c s'. apply replace_keep. discriminate.
  - intros s'. apply replace_absent. discriminate.
Qed.

Lemma C10_default_endpoint_rewrite_witness :
  nth_error (trace_of (main_run (130 + 0) [device_granted])) 1
  = Some (Printed
            (FString "Please open this URL to authenticate: "
               (JStr "http://localhost:30080/realms/iceberg/device?user_code=WDJB-MJHT"))).
Proof.
  refine (proj1 (proj2
    (C10_default_endpoint_rewrite
       "http://lakekeeper-keycloak:8080/realms/iceberg/protocol/openid-connect/token"
       "http://lakekeeper-keycloak:8080/realms/iceberg/protocol/openid-connect/auth/device"
       "lakekeeper" (Some "lakekeeper") None default_polling_interval 0
       (scenario [device_granted]) device_granted []
       "http://lakekeeper-keycloak:8080/realms/iceberg/device?user_code=WDJB-MJHT"
       (JStr "GmRhmhcxhwAzkoEqiMEg_DnyEysNkuNhszIySk9eS") _ _ _))).
  - reflexivity.
  - reflexivity.
  - reflexivity.
Defined.

(** C6: the rewrite map decides nothing but the URL shown.  On a
    device-code response that is accepted and whose verification URL is a
    string, the run is the device-code request, the display of the URL
    with the substitutions of the map applied one after the other in the
    order of the map, and the polling loop, in which the map does not
    occur; every poll request carries as [device_code] the value of the
    response, as the server gave it. *)
Theorem C6_rewrite_only_display
    (token_endpoint device_endpoint client_id : string)
    (scope host_header : option string) (polling_interval : Z)
    (endpoint_rewrite : option (dict string))
    (f : nat) (w : world) (r : Response) (rest : list Response)
    (s : string) (device_code : json) :
  inbox w = r :: rest -> http_error r = false ->
  device_fields r = Some (JStr s, device_code) ->
  let flow :=
    authenticate_device_flow_with_pkce token_endpoint device_endpoint client_id
      scope host_header polling_interval endpoint_rewrite in
  let device_req :=
    device_request device_endpoint client_id scope host_header (verifier_of w) in
  let token_req :=
    token_request token_endpoint client_id host_header device_code (verifier_of w) in
  run (130 + f) w flow =
    emit (Posted device_req)
      (emit (Printed
               (FString "Please open this URL to authenticate: "
                  (JStr (rewrite_url endpoint_rewrite s))))
         (run f (mkWorld (entropy w) (128 + drawn w) rest)
            (while_True
               (poll token_endpoint client_id device_code (verifier_of w)
                  (request_headers host_header) polling_interval)))) /\
  rewrite_url endpoint_rewrite s =
    fold_left (fun u p => str.replace u (fst p) (snd p))
      (match endpoint_rewrite with Some items => items | None => [] end) s /\
  dict_get (data token_req) "device_code" = Some device_code /\
  (forall fuel tr o w' f',
      run fuel w flow = (tr, o, w', f') -> finished o = true ->
      exists n, requests_of tr = device_req :: repeat token_req n).
Proof.
  intros Hin Herr Hfields flow device_req token_req.
  split; [|split; [|split]].
  - unfold flow. rewrite run_flow, Hin. cbv zeta.
    rewrite (device_phase_ok _ _ _ _ Herr Hfields). reflexivity.
  - destruct endpoint_rewrite; reflexivity.
  - reflexivity.
  - intros fuel tr o w' f' Hrun Hfin.
    destruct (flow_requests _ _ _ _ _ _ _ _ _ _ _ _ _ Hrun Hfin) as [n ->].
    exists n. unfold token_req, device_code_of. rewrite Hin, Hfields. reflexivity.
Qed.

Lemma C6_rewrite_only_display_witness :
  trace_of
    (run (130 + 1) (scenario [device_granted])
       (authenticate_device_flow_with_pkce "http://idp/token" "http://idp/device"
          "lakekeeper" None None 5 chained_rewrite))
  = [Posted (device_request "http://idp/device" "lakekeeper" None None
               (verifier_of (scenario [device_granted])));
     Printed
       (FString "Please open this URL to authenticate: "
          (JStr "http://127.0.0.1:30080/realms/iceberg/device?user_code=WDJB-MJHT"));
     Posted (token_request "http://idp/token" "lakekeeper" None
               (JStr "GmRhmhcxhwAzkoEqiMEg_DnyEysNkuNhszIySk9eS")
               (verifier_of (scenario [device_granted])))].
Proof.
  rewrite (proj1
    (C6_rewrite_only_display "http://idp/token" "http://idp/device" "lakekeeper"
       None None 5 chained_rewrite 1 (scenario [device_granted]) device_granted []
       "http://lakekeeper-keycloak:8080/realms/iceberg/device?user_code=WDJB-MJHT"
       (JStr "GmRhmhcxhwAzkoEqiMEg_DnyEysNkuNhszIySk9eS")
       eq_refl eq_refl eq_refl)).
  vm_compute. reflexivity.
Defined.

(** * Further properties of the function *)

(** ** The device-code response *)

(** X1: a device-code response with a status from 400 to 599 makes the
    function raise [HTTPError] with that response; the device-code request
    is its only request, nothing is displayed and nothing is polled. *)
Theorem X1_device_http_error
    (token_endpoint device_endpoint client_id : string)
    (scope host_header : option string) (polling_interval : Z)
    (endpoint_rewrite : option (dict string))
    (f : nat) (w : world) (r : Response) (rest : list Response) :
  inbox w = r :: rest -> http_error r = true ->
  run (130 + f) w
    (authenticate_device_flow_with_pkce token_endpoint device_endpoint client_id
       scope host_header polling_interval endpoint_rewrite)
  = ([Posted (device_request device_endpoint client_id scope host_header
                (verifier_of w))],
     Done (inl (HTTPError r)),
     mkWorld (entropy w) (128 + drawn w) rest, S f).
Proof.
  intros Hin Herr. rewrite run_flow, Hin. cbv zeta.
  unfold device_phase. rewrite Herr. reflexivity.
Qed.

Lemma X1_device_http_error_witness :
  run (130 + 0) (scenario [device_refused; token_granted]) main
  = ([Posted (device_request
                "http://lakekeeper-keycloak:8080/realms/iceberg/protocol/openid-connect/auth/device"
                "lakekeeper" (Some "lakekeeper") None
                (verifier_of (scenario [device_refused; token_granted])))],
     Done (inl (HTTPError device_refused)),
     mkWorld scenario_entropy (128 + 0) [token_granted], 1%nat).
Proof.
  apply (X1_device_http_error
           "http://lakekeeper-keycloak:8080/realms/iceberg/protocol/openid-connect/token"
           "http://lakekeeper-keycloak:8080/realms/iceberg/protocol/openid-connect/auth/device"
           "lakekeeper" (Some "lakekeeper") None default_polling_interval
           default_endpoint_rewrite 0 (scenario [device_refused; token_granted])
           device_refused [token_granted]).
  - reflexivity.
  - reflexivity.
Defined.

(** X2: a device-code response whose status is not from 400 to 599 and
    whose body does not hold both fields ends the function before anything
    is displayed or polled: [JSONDecodeError] when the body does not parse,
    [TypeError] when it is JSON but no object, [KeyError] with the name of
    the first field missing otherwise. *)
Theorem X2_device_body_error
    (token_endpoint device_endpoint client_id : string)
    (scope host_header : option string) (polling_interval : Z)
    (endpoint_rewrite : option (dict string))
    (f : nat) (w : world) (r : Response) (rest : list Response) :
  inbox w = r :: rest -> http_error r = false -> device_fields r = None ->
  run (130 + f) w
    (authenticate_device_flow_with_pkce token_endpoint device_endpoint client_id
       scope host_header polling_interval endpoint_rewrite)
  = ([Posted (device_request device_endpoint client_id scope host_header
                (verifier_of w))],
     Done (inl (match body_json r with
                | None => JSONDecodeError
                | Some (JObj fields) =>
                    match dict_get fields "verification_uri_complete" with
                    | None => KeyError "verification_uri_complete"
                    | Some _ => KeyError "device_code"
                    end
                | Some _ => TypeError
                end)),
     mkWorld (entropy w) (128 + drawn w) rest, S f).
Proof.
  intros Hin Herr Hfields. rewrite run_flow, Hin. cbv zeta.
  unfold device_phase, device_fields in *. rewrite Herr.
  destruct (body_json r) as [[| | | | |items|fields]|]; try reflexivity.
  destruct (dict_get fields "verification_uri_complete") as [uri|]; [|reflexivity].
  destruct (dict_get fields "device_code") as [dc|]; [discriminate | reflexivity].
Qed.

Lemma X2_device_body_error_witness :
  run (130 + 0) (scenario [redirect; token_granted]) main
  = ([Posted (device_request
                "http://lakekeeper-keycloak:8080/realms/iceberg/protocol/openid-connect/auth/device"
                "lakekeeper" (Some "lakekeeper") None
                (verifier_of (scenario [redirect; token_granted])))],
     Done (inl JSONDecodeError),
     mkWorld scenario_entropy (128 + 0) [token_granted], 1%nat).
Proof.
  apply (X2_device_body_error
           "http://lakekeeper-keycloak:8080/realms/iceberg/protocol/openid-connect/token"
           "http://lakekeeper-keycloak:8080/realms/iceberg/protocol/openid-connect/auth/device"
           "lakekeeper" (Some "lakekeeper") None default_polling_interval
           default_endpoint_rewrite 0 (scenario [redirect; token_granted])
           redirect [token_granted]).
  - reflexivity.
  - reflexivity.
  - reflexivity.
Defined.

(** X3: with no rewrite map, or an empty one, the verification URL is
    displayed as the server gave it, of whatever JSON type it is. *)
Theorem X3_no_rewrite
    (token_endpoint device_endpoint client_id : string)
    (scope host_header : option string) (polling_interval : Z)
    (endpoint_rewrite : option (dict string))
    (f : nat) (w : world) (r : Response) (rest : list Response)
    (uri device_code : json) :
  inbox w = r :: rest -> http_error r = false ->
  device_fields r = Some (uri, device_code) ->
  match endpoint_rewrite with Some (_ :: _) => false | _ => true end = true ->
  nth_error
    (trace_of
       (run (130 + f) w
          (authenticate_device_flow_with_pkce token_endpoint device_endpoint
             client_id scope host_header polling_interval endpoint_rewrite)))
    1
  = Some (Printed (FString "Please open this URL to authenticate: " uri)).
Proof.
  intros Hin Herr Hfields Hrw. rewrite run_flow, Hin. cbv zeta.
  unfold device_phase, device_fields in *. rewrite Herr.
  destruct (body_json r) as [[| | | | |items|fields]|]; try discriminate.
  destruct (dict_get fields "verification_uri_complete") as [u|]; [|discriminate].
  destruct (dict_get fields "device_code") as [dc|]; [|discriminate].
  injection Hfields as -> ->.
  destruct endpoint_rewrite as [[|p items]|]; try discriminate;
    cbn [displayed_url]; rewrite !trace_of_emit; reflexivity.
Qed.

Lemma X3_no_rewrite_witness :
  nth_error
    (trace_of
       (run (130 + 0) (scenario [device_granted])
          (authenticate_device_flow_with_pkce "http://idp/token" "http://idp/device"
             "lakekeeper" None None 5 (Some []))))
    1
  = Some (Printed
            (FString "Please open this URL to authenticate: "
               (JStr "http://lakekeeper-keycloak:8080/realms/iceberg/device?user_code=WDJB-MJHT"))).
Proof.
  apply (X3_no_rewrite "http://idp/token" "http://idp/device" "lakekeeper" None None 5
           (Some []) 0 (scenario [device_granted]) device_granted []
           (JStr "http://lakekeeper-keycloak:8080/realms/iceberg/device?user_code=WDJB-MJHT")
           (JStr "GmRhmhcxhwAzkoEqiMEg_DnyEysNkuNhszIySk9eS")).
  - reflexivity.
  - reflexivity.
  - reflexivity.
  - reflexivity.
Defined.

(** X4: with a rewrite map that is not empty, a verification URL that is
    not a string makes the function raise [AttributeError] after the
    device-code request: nothing is displayed, nothing is polled. *)
Theorem X4_rewrite_needs_string
    (token_endpoint device_endpoint client_id : string)
    (scope host_header : option string) (polling_interval : Z)
    (p : string * string) (items : dict string)
    (f : nat) (w : world) (r : Response) (rest : list Response)
    (uri device_code : json) :
  inbox w = r :: rest -> http_error r = false ->
  device_fields r = Some (uri, device_code) -> is_str uri = false ->
  run (130 + f) w
    (authenticate_device_flow_with_pkce token_endpoint device_endpoint client_id
       scope host_header polling_interval (Some (p :: items)))
  = ([Posted (device_request device_endpoint client_id scope host_header
                (verifier_of w))],
     Done (inl AttributeError),
     mkWorld (entropy w) (128 + drawn w) rest, S f).
Proof.
  intros Hin Herr Hfields Huri. rewrite run_flow, Hin. cbv zeta.
  unfold device_phase, device_fields in *. rewrite Herr.
  destruct (body_json r) as [[| | | | |its|fields]|]; try discriminate.
  destruct (dict_get fields "verification_uri_complete") as [u|]; [|discriminate].
  destruct (dict_get fields "device_code") as [dc|]; [|discriminate].
  injection Hfields as -> ->.
  destruct uri; try discriminate; reflexivity.
Qed.

Lemma X4_rewrite_needs_string_witness :
  run (130 + 0) (scenario [device_null_uri])
    (authenticate_device_flow_with_pkce "http://idp/token" "http://idp/device"
       "lakekeeper" None None 5 (Some [("a", "b")]))
  = ([Posted (device_request "http://idp/device" "lakekeeper" None None
                (verifier_of (scenario [device_null_uri])))],
     Done (inl AttributeError),
     mkWorld scenario_entropy (128 + 0) [], 1%nat).
Proof.
  apply (X4_rewrite_needs_string "http://idp/token" "http://idp/device" "lakekeeper"
           None None 5 ("a", "b") [] 0 (scenario [device_null_uri]) device_null_uri
           [] JNull (JStr "code")).
  - reflexivity.
  - reflexivity.
  - reflexivity.
  - reflexivity.
Defined.

(** ** The polling loop, response by response *)







(** ** How the loop ends *)

Lemma poll_completion_next (polling_interval : Z) (r : Response) :
  poll_completion polling_interval r = inr Next -> status_code r <> 200.
Proof.
  unfold poll_completion. destruct (Z.eqb_spec (status_code r) 200) as [_|Hs].
  - destruct (body_json r); discriminate.
  - intros _. exact Hs.
Qed.

Lemma poll_completion_return (polling_interval : Z) (r : Response) (v : json) :
  poll_completion polling_interval r = inr (Return v) ->
  status_code r = 200 /\ body_json r = Some v.
Proof.
  unfold poll_completion. destruct (Z.eqb_spec (status_code r) 200) as [Hs|_].
  - destruct (body_json r) as [v'|]; [|discriminate]. intros [= ->]. auto.
  - destruct (is_pending r), (time.overflows polling_interval),
      (polling_interval <? 0), (body_type_error r), (http_error r);
      discriminate.
Qed.

Lemma poll_completion_raise (polling_interval : Z) (r : Response) (ex : exn) :
  poll_completion polling_interval r = inl ex ->
  (status_code r = 200 /\ body_json r = None /\ ex = JSONDecodeError)
  \/ (status_code r <> 200 /\ body_type_error r = true /\ ex = TypeError)
  \/ (status_code r <> 200 /\ http_error r = true /\ ex = HTTPError r)
  \/ (status_code r <> 200 /\ is_pending r = true /\
      time.overflows polling_interval = true /\ ex = OverflowError).
Proof.
  unfold poll_completion. destruct (Z.eqb_spec (status_code r) 200) as [Hs|Hs].
  - destruct (body_json r) as [v'|]; [discriminate|]. intros [= <-]. auto.
  - destruct (is_pending r), (time.overflows polling_interval),
      (polling_interval <? 0), (body_type_error r), (http_error r);
      try discriminate; intros [= <-]; auto 10.
Qed.

Section LoopEnd.

Variables token_endpoint client_id : string.
Variable device_code : json.
Variable verifier : string.
Variable hs : dict string.
Variable polling_interval : Z.

Let req : Request :=
  mkRequest token_endpoint (token_request_data client_id device_code verifier)
    hs false.

Let loop : py json :=
  while_True (poll token_endpoint client_id device_code verifier hs polling_interval).

(** A run of the loop that returned or raised: the responses before the
    last one it read all sent it round again. *)
Lemma loop_decided (rs : list Response) :
  forall fuel e d tr x w' f',
    run fuel (mkWorld e d rs) loop = (tr, Done x, w', f') ->
    exists before r after,
      rs = (before ++ r :: after)%list /\
      Forall (fun q => poll_completion polling_interval q = inr Next) before /\
      poll_completion polling_interval r
        = match x with inl ex => inl ex | inr v => inr (Return v) end /\
      w' = mkWorld e d after /\
      requests_of tr = repeat req (S (List.length before)).
Proof.
  unfold loop.
  induction rs as [|r rest IH]; intros fuel e d tr x w' f' Hrun;
    apply (run_more_fuel 4) in Hrun; try reflexivity;
    rewrite Nat.add_comm in Hrun.
  - change (4 + fuel)%nat with (S (3 + fuel)) in Hrun. rewrite run_loop_nil in Hrun.
    discriminate.
  - rewrite run_loop_cons in Hrun. cbv zeta in Hrun.
    destruct (poll_completion polling_interval r) as [ex|[|v]] eqn:Hc.
    + injection Hrun as <- <- <- _. exists [], r, rest. repeat split; auto.
      cbn [requests_of]. rewrite poll_events_requests. reflexivity.
    + cbn [then_run] in Hrun.
      destruct (run _ _ (while_True _)) as [[[tr2 o2] w2] f2] eqn:Hrest.
      injection Hrun as <- -> <- Hf.
      destruct (IH _ _ _ _ _ _ _ Hrest)
        as (before & r' & after & -> & Hbefore & Hlast & Hw & Hreq).
      exists (r :: before), r', after. repeat split; auto.
      cbn [requests_of app List.length].
      rewrite requests_of_app, poll_events_requests, Hreq. reflexivity.
    + injection Hrun as <- <- <- _. exists [], r, rest. repeat split; auto.
      cbn [requests_of]. rewrite poll_events_requests. reflexivity.
Qed.

(** What every run of the loop that has ended leaves alone and prints. *)
Lemma loop_frame (rs : list Response) :
  forall fuel e d tr o w' f',
    run fuel (mkWorld e d rs) loop = (tr, o, w', f') -> finished o = true ->
    entropy w' = e /\ drawn w' = d /\
    forallb loop_message (prints_of tr) = true.
Proof.
  assert (Hmsg : forall r, forallb loop_message
                             (prints_of (poll_events polling_interval r)) = true).
  { intros r. unfold poll_events.
    destruct (status_code r =? 200), (is_pending r),
      (time.overflows polling_interval), (polling_interval <? 0);
      reflexivity. }
  unfold loop.
  induction rs as [|r rest IH]; intros fuel e d tr o w' f' Hrun Hfin;
    apply (run_more_fuel 4) in Hrun; [|exact Hfin| |exact Hfin];
    rewrite Nat.add_comm in Hrun.
  - change (4 + fuel)%nat with (S (3 + fuel)) in Hrun. rewrite run_loop_nil in Hrun.
    injection Hrun as <- <- <- _. repeat split.
  - rewrite run_loop_cons in Hrun. cbv zeta in Hrun.
    destruct (poll_completion polling_interval r) as [ex|[|v]] eqn:Hc.
    + injection Hrun as <- <- <- _. repeat split. apply Hmsg.
    + cbn [then_run] in Hrun.
      destruct (run _ _ (while_True _)) as [[[tr2 o2] w2] f2] eqn:Hrest.
      injection Hrun as <- <- <- Hf.
      destruct (IH _ _ _ _ _ _ _ Hrest Hfin) as [He [Hd Hp]].
      repeat split; auto. cbn [prints_of app].
      rewrite prints_of_app, forallb_app, Hmsg, Hp. reflexivity.
    + injection Hrun as <- <- <- _. repeat split. apply Hmsg.
Qed.


End LoopEnd.





Lemma body_type_error_not_pending (r : Response) :
  body_type_error r = true -> is_pending r = false.
Proof.
  unfold body_type_error, is_pending.
  destruct (body_json r) as [[| | | | |items|fields]|]; try reflexivity.
  discriminate.
Qed.



Lemma negative_interval (polling_interval : Z) :
  - 9223372037 < polling_interval < 0 ->
  time.overflows polling_interval = false /\ (polling_interval <? 0) = true.
Proof.
  unfold time.overflows, time.sleep_limit. intros H. split.
  - apply orb_false_iff. split; [apply Z.leb_gt | apply Z.leb_gt]; lia.
  - apply Z.ltb_lt. lia.
Qed.

(** X10: with a negative [polling_interval] that [time.sleep] can take
    (above -9223372037) a pending response prints the message but
    [time.sleep] raises [ValueError], which the clause for [ValueError]
    catches: with a status from 400 to 599 the function then raises
    [HTTPError] with the pending response, without having slept. *)
Theorem X10_negative_interval
    (token_endpoint device_endpoint client_id : string)
    (scope host_header : option string) (polling_interval : Z)
    (endpoint_rewrite : option (dict string))
    (f : nat) (w : world) (r0 r : Response) (rest : list Response)
    (s : string) (device_code : json) :
  inbox w = r0 :: r :: rest -> http_error r0 = false ->
  device_fields r0 = Some (JStr s, device_code) ->
  - 9223372037 < polling_interval < 0 ->
  is_pending r = true -> http_error r = true ->
  let device_req :=
    device_request device_endpoint client_id scope host_header (verifier_of w) in
  let token_req :=
    token_request token_endpoint client_id host_header device_code (verifier_of w) in
  exists f',
    run (134 + f) w
      (authenticate_device_flow_with_pkce token_endpoint device_endpoint client_id
         scope host_header polling_interval endpoint_rewrite)
    = ([Posted device_req;
        Printed (FString "Please open this URL to authenticate: "
                   (JStr (rewrite_url endpoint_rewrite s)));
        Posted token_req;
        Printed (Literal "Waiting for authentication to complete...")],
       Done (inl (HTTPError r)),
       mkWorld (entropy w) (128 + drawn w) rest, f').
Proof.
  intros Hin Herr Hfields Hpi Hp Hr device_req token_req.
  pose proof (device_phase_ok endpoint_rewrite _ _ _ Herr Hfields) as Hd.
  assert (Hs : status_code r <> 200).
  { unfold http_error in Hr. apply andb_true_iff in Hr as [Hr _].
    apply Z.leb_le in Hr. lia. }
  assert (Hty : body_type_error r = false).
  { destruct (body_type_error r) eqn:E; [|reflexivity].
    apply body_type_error_not_pending in E. congruence. }
  change (134 + f)%nat with (130 + (4 + f))%nat.
  rewrite run_flow, Hin. cbv zeta. rewrite Hd, run_loop_cons. cbv zeta.
  unfold poll_events, poll_completion.
  destruct (Z.eqb_spec (status_code r) 200); [contradiction|].
  destruct (negative_interval _ Hpi) as [-> ->].
  rewrite Hp, Hr. cbn. eexists. reflexivity.
Qed.

Lemma X10_negative_interval_witness :
  exists f',
    run (134 + 0) (scenario [device_granted; token_pending; token_granted])
      (authenticate_device_flow_with_pkce "http://idp/token" "http://idp/device"
         "lakekeeper" None None (-1) None)
    = ([Posted (device_request "http://idp/device" "lakekeeper" None None
                  (verifier_of
                     (scenario [device_granted; token_pending; token_granted])));
        Printed
          (FString "Please open this URL to authenticate: "
             (JStr
                (rewrite_url None
                   "http://lakekeeper-keycloak:8080/realms/iceberg/device?user_code=WDJB-MJHT")));
        Posted (token_request "http://idp/token" "lakekeeper" None
                  (JStr "GmRhmhcxhwAzkoEqiMEg_DnyEysNkuNhszIySk9eS")
                  (verifier_of
                     (scenario [device_granted; token_pending; token_granted])));
        Printed (Literal "Waiting for authentication to complete...")],
       Done (inl (HTTPError token_pending)),
       mkWorld scenario_entropy (128 + 0) [token_granted], f').
Proof.
  apply (X10_negative_interval "http://idp/token" "http://idp/device" "lakekeeper"
           None None (-1) None 0
           (scenario [device_granted; token_pending; token_granted])
           device_granted token_pending [token_granted]
           "http://lakekeeper-keycloak:8080/realms/iceberg/device?user_code=WDJB-MJHT"
           (JStr "GmRhmhcxhwAzkoEqiMEg_DnyEysNkuNhszIySk9eS")).
  - reflexivity.
  - reflexivity.
  - reflexivity.
  - lia.
  - reflexivity.
  - reflexivity.
Defined.

(** ** Runs that have ended, read backwards *)

Section FlowEnd.

Variables token_endpoint device_endpoint client_id : string.
Variables scope host_header : option string.
Variable polling_interval : Z.
Variable endpoint_rewrite : option (dict string).

Let flow : py json :=
  authenticate_device_flow_with_pkce token_endpoint device_endpoint client_id
    scope host_header polling_interval endpoint_rewrite.

(** The part of an ended run that the loop made. *)
Lemma flow_loop_run (fuel : nat) (w : world) tr o w' f'
    (r0 : Response) (rest : list Response) (uri device_code : json) :
  run fuel w flow = (tr, o, w', f') -> finished o = true ->
  inbox w = r0 :: rest ->
  device_phase endpoint_rewrite r0 = inr (uri, device_code) ->
  exists tr_loop f_loop,
    tr = Posted (device_request device_endpoint client_id scope host_header
                   (verifier_of w))
           :: Printed (FString "Please open this URL to authenticate: " uri)
           :: tr_loop /\
    run fuel (mkWorld (entropy w) (128 + drawn w) rest)
      (while_True
         (poll token_endpoint client_id device_code (verifier_of w)
            (request_headers host_header) polling_interval))
    = (tr_loop, o, w', f_loop).
Proof.
  intros Hrun Hfin Hin Hd. apply (run_more_fuel 130) in Hrun; [|exact Hfin].
  rewrite Nat.add_comm in Hrun. unfold flow in Hrun.
  rewrite run_flow, Hin in Hrun. cbv zeta in Hrun. rewrite Hd in Hrun.
  destruct (run fuel _ (while_True _)) as [[[tr2 o2] w2] f2] eqn:Hloop.
  injection Hrun as <- <- <- _. exists tr2, f2. split; reflexivity.
Qed.

(** The ways an ended run can have raised or returned. *)
Lemma flow_done (fuel : nat) (w : world) tr x w' f' :
  run fuel w flow = (tr, Done x, w', f') ->
  exists r0 rest,
    inbox w = r0 :: rest /\
    ((exists e, x = inl e /\ device_phase endpoint_rewrite r0 = inl e /\
                w' = mkWorld (entropy w) (128 + drawn w) rest /\
                tr = [Posted (device_request device_endpoint client_id scope
                                host_header (verifier_of w))])
     \/ exists uri before r after,
          device_phase endpoint_rewrite r0 = inr (uri, device_code_of w) /\
          rest = (before ++ r :: after)%list /\
          Forall (fun q => poll_completion polling_interval q = inr Next) before /\
          poll_completion polling_interval r
            = match x with inl ex => inl ex | inr v => inr (Return v) end /\
          w' = mkWorld (entropy w) (128 + drawn w) after /\
          requests_of tr
            = device_request device_endpoint client_id scope host_header
                (verifier_of w)
              :: repeat
                   (token_request token_endpoint client_id host_header
                      (device_code_of w) (verifier_of w))
                   (S (List.length before))).
Proof.
  intros Hrun. pose proof Hrun as Hrun0.
  apply (run_more_fuel 130) in Hrun; [|reflexivity].
  rewrite Nat.add_comm in Hrun. unfold flow in Hrun. rewrite run_flow in Hrun.
  destruct (inbox w) as [|r0 rest] eqn:Hin; [discriminate|].
  exists r0, rest. split; [reflexivity|]. cbv zeta in Hrun.
  destruct (device_phase endpoint_rewrite r0) as [e|[uri device_code]] eqn:Hd.
  - injection Hrun as <- <- <- _. left. exists e. auto.
  - right. clear Hrun.
    destruct (flow_loop_run _ _ _ _ _ _ _ _ _ _ Hrun0 eq_refl Hin Hd)
      as (tr2 & f2 & -> & Hloop).
    destruct (loop_decided _ _ _ _ _ _ _ _ _ _ _ _ _ _ Hloop)
      as (before & r & after & -> & Hbefore & Hlast & -> & Hreq).
    rewrite (device_phase_code endpoint_rewrite _ _ _ _ _ Hin Hd).
    exists uri, before, r, after. repeat split; auto.
    cbn [requests_of]. rewrite Hreq. reflexivity.
Qed.

End FlowEnd.

Lemma device_phase_http_error (endpoint_rewrite : option (dict string))
    (r0 r : Response) :
  device_phase endpoint_rewrite r0 = inl (HTTPError r) ->
  r = r0 /\ http_error r0 = true.
Proof.
  unfold device_phase. destruct (http_error r0); [intros [= ->]; auto|].
  destruct (body_json r0) as [[| | | | |items|fields]|]; try discriminate.
  destruct (dict_get fields "verification_uri_complete") as [uri|]; [|discriminate].
  destruct (dict_get fields "device_code") as [dc|]; [|discriminate].
  destruct (displayed_url endpoint_rewrite uri); discriminate.
Qed.



(** X12: the function returns a value only as the JSON body of a token
    response with status 200: the device-code response before it had no
    error status, no token response before it was a 200, every response
    up to it answered one request, and the responses after it are left
    unread. *)
Theorem X12_returned_value
    (token_endpoint device_endpoint client_id : string)
    (scope host_header : option string) (polling_interval : Z)
    (endpoint_rewrite : option (dict string))
    (fuel : nat) (w : world) (tr : list event) (v : json) (w' : world) (f' : nat) :
  run fuel w
    (authenticate_device_flow_with_pkce token_endpoint device_endpoint client_id
       scope host_header polling_interval endpoint_rewrite)
  = (tr, Done (inr v), w', f') ->
  exists r0 before r after,
    inbox w = (r0 :: before ++ r :: after)%list /\
    http_error r0 = false /\
    Forall (fun q => status_code q <> 200) before /\
    status_code r = 200 /\ body_json r = Some v /\
    inbox w' = after /\
    List.length (requests_of tr) = (2 + List.length before)%nat.
Proof.
  intros Hrun. apply flow_done in Hrun as (r0 & rest & Hin & Hcases).
  destruct Hcases as [(e & [=] & _)
                     | (uri & before & r & after & Hd & -> & Hbefore & Hlast & -> & Hreq)].
  apply poll_completion_return in Hlast as [Hs Hb].
  apply device_phase_inr in Hd as [Herr _].
  exists r0, before, r, after. repeat split; auto.
  - eapply Forall_impl; [|exact Hbefore]. intros q. apply poll_completion_next.
  - rewrite Hreq. cbn [List.length]. rewrite repeat_length. reflexivity.
Qed.

Lemma X12_returned_value_witness :
  exists r0 before r after,
    inbox (scenario [device_granted; token_pending; token_granted; token_denied])
      = (r0 :: before ++ r :: after)%list /\
    http_error r0 = false /\
    Forall (fun q => status_code q <> 200) before /\
    status_code r = 200 /\
    body_json r = Some (JObj [("access_token", JStr "abc")]).
Proof.
  destruct (X12_returned_value
              "http://lakekeeper-keycloak:8080/realms/iceberg/protocol/openid-connect/token"
              "http://lakekeeper-keycloak:8080/realms/iceberg/protocol/openid-connect/auth/device"
              "lakekeeper" (Some "lakekeeper") None default_polling_interval
              default_endpoint_rewrite 200
              (scenario [device_granted; token_pending; token_granted; token_denied])
              (trace_of
                 (main_run 200 [device_granted; token_pending; token_granted; token_denied]))
              (JObj [("access_token", JStr "abc")])
              (world_of
                 (main_run 200 [device_granted; token_pending; token_granted; token_denied]))
              (fuel_of
                 (main_run 200 [device_granted; token_pending; token_granted; token_denied])))
    as (r0 & before & r & after & H1 & H2 & H3 & H4 & H5 & _ & _).
  - vm_compute. reflexivity.
  - exists r0, before, r, after. repeat split; assumption.
Defined.

(** X13: an [HTTPError] the function raises carries a response the server
    really gave and whose status is from 400 to 599: the device-code
    response, or a token response. *)
Theorem X13_http_error_response
    (token_endpoint device_endpoint client_id : string)
    (scope host_header : option string) (polling_interval : Z)
    (endpoint_rewrite : option (dict string))
    (fuel : nat) (w : world) (tr : list event) (r : Response) (w' : world)
    (f' : nat) :
  run fuel w
    (authenticate_device_flow_with_pkce token_endpoint device_endpoint client_id
       scope host_header polling_interval endpoint_rewrite)
  = (tr, Done (inl (HTTPError r)), w', f') ->
  In r (inbox w) /\ 400 <= status_code r < 600.
Proof.
  intros Hrun. apply flow_done in Hrun as (r0 & rest & Hin & Hcases).
  assert (Hrange : forall q, http_error q = true -> 400 <= status_code q < 600).
  { intros q Hq. unfold http_error in Hq. apply andb_true_iff in Hq as [H1 H2].
    apply Z.leb_le in H1. apply Z.ltb_lt in H2. lia. }
  rewrite Hin.
  destruct Hcases as [(e & [= <-] & Hd & _)
                     | (uri & before & q & after & _ & -> & _ & Hlast & _)].
  - apply device_phase_http_error in Hd as [-> Herr]. split; [left; reflexivity|].
    apply Hrange, Herr.
  - apply poll_completion_raise in Hlast
      as [(_ & _ & [=]) | [(_ & _ & [=]) | [(_ & Herr & [= ->]) | (_ & _ & _ & [=])]]].
    split; [|apply Hrange, Herr]. right. apply in_or_app. right. left. reflexivity.
Qed.

Lemma X13_http_error_response_witness :
  In token_denied (inbox (scenario [device_granted; token_pending; token_denied])) /\
  400 <= status_code token_denied < 600.
Proof.
  apply (X13_http_error_response
           "http://lakekeeper-keycloak:8080/realms/iceberg/protocol/openid-connect/token"
           "http://lakekeeper-keycloak:8080/realms/iceberg/protocol/openid-connect/auth/device"
           "lakekeeper" (Some "lakekeeper") None default_polling_interval
           default_endpoint_rewrite 200
           (scenario [device_granted; token_pending; token_denied])
           (trace_of (main_run 200 [device_granted; token_pending; token_denied]))
           token_denied
           (world_of (main_run 200 [device_granted; token_pending; token_denied]))
           (fuel_of (main_run 200 [device_granted; token_pending; token_denied]))).
  vm_compute. reflexivity.
Defined.

(** ** The shape of the challenge *)

Lemma round_length (st : list Z) (kw : Z * Z) :
  List.length st = 8%nat -> List.length (hashlib.round st kw) = 8%nat.
Proof.
  intros H. do 9 (destruct st as [|? st]; try discriminate H). reflexivity.
Qed.

Lemma fold_round_length (kws : list (Z * Z)) :
  forall st, List.length st = 8%nat ->
             List.length (fold_left hashlib.round kws st) = 8%nat.
Proof.
  induction kws as [|kw kws IH]; intros st H; cbn [fold_left]; [exact H|].
  apply IH, round_length, H.
Qed.

Lemma compress_length (st block : list Z) :
  List.length st = 8%nat -> List.length (hashlib.compress st block) = 8%nat.
Proof.
  intros H. unfold hashlib.compress.
  rewrite length_map, length_combine, fold_round_length, H; [reflexivity | exact H].
Qed.

Lemma blocks_length (n : nat) :
  forall ws st, List.length st = 8%nat ->
                List.length (hashlib.blocks n ws st) = 8%nat.
Proof.
  induction n as [|n IH]; intros ws st H; cbn [hashlib.blocks]; [exact H|].
  apply IH, compress_length, H.
Qed.

Lemma be_bytes_flat_length (l : list Z) :
  List.length (flat_map (hashlib.be_bytes 4) l) = (4 * List.length l)%nat.
Proof.
  induction l as [|x l IH]; [reflexivity|].
  cbn [flat_map]. rewrite length_app, IH. cbn [hashlib.be_bytes List.length]. lia.
Qed.

(** A digest has 32 bytes. *)
Lemma sha256_length (msg : list byte) : List.length (hashlib.sha256 msg) = 32%nat.
Proof.
  unfold hashlib.sha256. rewrite length_map, be_bytes_flat_length, blocks_length;
    reflexivity.
Qed.

Lemma base64url_nopad_length_32 (bs : list byte) :
  List.length bs = 32%nat -> String.length (spec.base64url_nopad bs) = 43%nat.
Proof.
  intros H. do 33 (destruct bs as [|? bs]; try discriminate H). reflexivity.
Qed.

Lemma to_Z_range (b : byte) : 0 <= bytes.to_Z b < 256.
Proof.
  unfold bytes.to_Z. pose proof (Byte.to_N_bounded b) as H. lia.
Qed.

Lemma digit_index_urlsafe (k : nat) :
  (k < 64)%nat ->
  urlsafe_char
    (match get k spec.urlsafe_alphabet with Some c => c | None => zero end) = true.
Proof.
  do 64 (destruct k as [|k]; [reflexivity|]). lia.
Qed.

Lemma digit_urlsafe (n : Z) : 0 <= n < 64 -> urlsafe_char (spec.digit n) = true.
Proof.
  intros H. unfold spec.digit. apply digit_index_urlsafe. lia.
Qed.

Lemma lor_lt_64 (x y : Z) : 0 <= x < 64 -> 0 <= y < 64 -> 0 <= Z.lor x y < 64.
Proof.
  intros Hx Hy. split; [apply Z.lor_nonneg; lia|].
  assert (Hlog : forall z, 0 <= z < 64 -> Z.log2 z < 6).
  { intros z Hz. destruct (Z.eq_dec z 0) as [->|Hnz]; [reflexivity|].
    apply Z.log2_lt_pow2; lia. }
  destruct (Z.eq_dec (Z.lor x y) 0) as [->|Hnz]; [lia|].
  assert (0 <= Z.lor x y) by (apply Z.lor_nonneg; lia).
  change 64 with (2 ^ 6). apply Z.log2_lt_pow2; [lia|].
  rewrite Z.log2_lor by lia. apply Z.max_lub_lt; apply Hlog; assumption.
Qed.

Lemma shiftr_range (a n : Z) (hi : Z) :
  0 <= n -> 0 <= a < hi * 2 ^ n -> 0 <= Z.shiftr a n < hi.
Proof.
  intros Hn Ha. rewrite Z.shiftr_div_pow2 by exact Hn.
  assert (0 < 2 ^ n) by (apply Z.pow_pos_nonneg; lia).
  split; [apply Z.div_pos; lia | apply Z.div_lt_upper_bound; lia].
Qed.

Lemma shiftl_land_range (a : Z) (bits n : Z) :
  0 <= bits -> 0 <= n -> 0 <= a ->
  0 <= Z.shiftl (Z.land a (Z.ones bits)) n < 2 ^ bits * 2 ^ n.
Proof.
  intros Hb Hn Ha. rewrite Z.land_ones by exact Hb.
  rewrite Z.shiftl_mul_pow2 by exact Hn.
  assert (0 < 2 ^ n) by (apply Z.pow_pos_nonneg; lia).
  assert (0 < 2 ^ bits) by (apply Z.pow_pos_nonneg; lia).
  pose proof (Z.mod_pos_bound a (2 ^ bits) ltac:(lia)) as Hm. nia.
Qed.

(** Every character of the unpadded encoding is a letter, a digit, [-] or
    [_]. *)
Lemma base64url_nopad_urlsafe (bs : list byte) :
  all_chars urlsafe_char (spec.base64url_nopad bs) = true.
Proof.
  assert (H1 : forall a, urlsafe_char (spec.digit (Z.shiftr (bytes.to_Z a) 2)) = true).
  { intros a. apply digit_urlsafe. pose proof (to_Z_range a).
    apply (shiftr_range _ 2 64); lia. }
  assert (H2 : forall a, 0 <= Z.shiftl (Z.land (bytes.to_Z a) 3) 4 < 64).
  { intros a. pose proof (to_Z_range a).
    apply (shiftl_land_range (bytes.to_Z a) 2 4); lia. }
  assert (H3 : forall b, 0 <= Z.shiftr (bytes.to_Z b) 4 < 64).
  { intros b. pose proof (to_Z_range b).
    pose proof (shiftr_range (bytes.to_Z b) 4 16 ltac:(lia) ltac:(lia)). lia. }
  assert (H4 : forall b, 0 <= Z.shiftl (Z.land (bytes.to_Z b) 15) 2 < 64).
  { intros b. pose proof (to_Z_range b).
    apply (shiftl_land_range (bytes.to_Z b) 4 2); lia. }
  assert (H5 : forall c, 0 <= Z.shiftr (bytes.to_Z c) 6 < 64).
  { intros c. pose proof (to_Z_range c).
    pose proof (shiftr_range (bytes.to_Z c) 6 4 ltac:(lia) ltac:(lia)). lia. }
  assert (H6 : forall c, 0 <= Z.land (bytes.to_Z c) 63 < 64).
  { intros c. pose proof (to_Z_range c). change 63 with (Z.ones 6).
    rewrite Z.land_ones by lia. apply Z.mod_pos_bound. reflexivity. }
  induction bs as [|a|a b|a b c l IH] using list_ind3;
    cbn [spec.base64url_nopad all_chars];
    rewrite ?H1, ?IH, ?digit_urlsafe; auto using lor_lt_64.
Qed.

Lemma challenge_length (v : string) :
  String.length (spec.code_challenge_S256 v) = 43%nat.
Proof.
  unfold spec.code_challenge_S256. apply base64url_nopad_length_32, sha256_length.
Qed.

(** X14: lines 45 to 48 never raise and perform no effect; the challenge
    they compute for a verifier is the unpadded URL-safe base64 encoding of
    its SHA-256 digest: always 43 characters, each a letter, a digit, [-]
    or [_], so without [=], [+] or [/]. *)
Theorem X14_challenge_format (f : nat) (w : world) (v : string) :
  exists c : string,
    run f w (code_challenge v) = ([], Done (inr c), w, f) /\
    c = spec.base64url_nopad (hashlib.sha256 (str.encode v)) /\
    String.length c = 43%nat /\
    all_chars urlsafe_char c = true.
Proof.
  exists (spec.code_challenge_S256 v). split; [apply run_code_challenge|].
  split; [reflexivity|]. split; [apply challenge_length|].
  apply base64url_nopad_urlsafe.
Qed.

(** X15: in a run that returned, the device-code request came first and
    at least one poll followed; every poll carries the verifier as
    [code_verifier]; the device-code request carries as [code_challenge]
    what lines 45 to 48 make of that verifier, the unpadded URL-safe
    base64 of its SHA-256 digest, has no [code_verifier] field, and its
    challenge is not the verifier. *)
Theorem X15_pkce_round_trip
    (token_endpoint device_endpoint client_id : string)
    (scope host_header : option string) (polling_interval : Z)
    (endpoint_rewrite : option (dict string))
    (fuel : nat) (w : world) (tr : list event) (v : json) (w' : world) (f' : nat) :
  run fuel w
    (authenticate_device_flow_with_pkce token_endpoint device_endpoint client_id
       scope host_header polling_interval endpoint_rewrite)
  = (tr, Done (inr v), w', f') ->
  exists (device_req token_req : Request) (n : nat) (verifier challenge padded : string),
    requests_of tr = device_req :: repeat token_req (S n) /\
    dict_get (data token_req) "code_verifier" = Some (JStr verifier) /\
    dict_get (data device_req) "code_challenge" = Some (JStr challenge) /\
    bytes.decode (base64.urlsafe_b64encode (hashlib.sha256 (str.encode verifier)))
      = Some padded /\
    challenge = str.replace padded "=" "" /\
    challenge = spec.base64url_nopad (hashlib.sha256 (str.encode verifier)) /\
    dict_get (data device_req) "code_verifier" = None /\
    challenge <> verifier.
Proof.
  intros Hrun.
  destruct (flow_returned _ _ _ _ _ _ _ _ _ _ _ _ _ Hrun) as [n Hreq].
  destruct (urlsafe_b64encode_nopad (hashlib.sha256 (str.encode (verifier_of w))))
    as [padded [Hdec Hrep]].
  exists (device_request device_endpoint client_id scope host_header (verifier_of w)),
    (token_request token_endpoint client_id host_header (device_code_of w)
       (verifier_of w)),
    n, (verifier_of w), (spec.code_challenge_S256 (verifier_of w)), padded.
  split; [exact Hreq|]. split; [reflexivity|].
  assert (Hkeys : forall key,
             dict_get
               (data (device_request device_endpoint client_id scope host_header
                        (verifier_of w))) key
             = dict_get
                 [("client_id", JStr client_id);
                  ("code_challenge_method", JStr "S256");
                  ("code_challenge", JStr (spec.code_challenge_S256 (verifier_of w)));
                  ("scope", JStr (resolved_scope client_id scope))] key
             \/ dict_get
                  (data (device_request device_endpoint client_id scope host_header
                           (verifier_of w))) key
                = dict_get
                    [("client_id", JStr client_id);
                     ("code_challenge_method", JStr "S256");
                     ("code_challenge",
                      JStr (spec.code_challenge_S256 (verifier_of w)))] key).
  { intros key. unfold device_request, device_request_data. cbn [data].
    destruct (String.eqb (resolved_scope client_id scope) ""); [right|left];
      reflexivity. }
  split; [destruct (Hkeys "code_challenge") as [-> | ->]; reflexivity|].
  split; [exact Hdec|]. split; [symmetry; exact Hrep|]. split; [reflexivity|].
  split; [destruct (Hkeys "code_verifier") as [-> | ->]; reflexivity|].
  intros Heq. pose proof (challenge_length (verifier_of w)) as Hlen.
  rewrite Heq, verifier_length in Hlen. discriminate.
Qed.

Lemma X15_pkce_round_trip_witness :
  exists (device_req token_req : Request) (n : nat) (verifier challenge padded : string),
    requests_of
      (trace_of (main_run 200 [device_granted; token_pending; token_granted]))
    = device_req :: repeat token_req (S n) /\
    dict_get (data token_req) "code_verifier" = Some (JStr verifier) /\
    dict_get (data device_req) "code_challenge" = Some (JStr challenge) /\
    bytes.decode (base64.urlsafe_b64encode (hashlib.sha256 (str.encode verifier)))
      = Some padded /\
    challenge = str.replace padded "=" "" /\
    challenge = spec.base64url_nopad (hashlib.sha256 (str.encode verifier)) /\
    dict_get (data device_req) "code_verifier" = None /\
    challenge <> verifier.
Proof.
  apply (X15_pkce_round_trip
           "http://lakekeeper-keycloak:8080/realms/iceberg/protocol/openid-connect/token"
           "http://lakekeeper-keycloak:8080/realms/iceberg/protocol/openid-connect/auth/device"
           "lakekeeper" (Some "lakekeeper") None default_polling_interval
           default_endpoint_rewrite 200
           (scenario [device_granted; token_pending; token_granted])
           (trace_of (main_run 200 [device_granted; token_pending; token_granted]))
           (JObj [("access_token", JStr "abc")])
           (world_of (main_run 200 [device_granted; token_pending; token_granted]))
           (fuel_of (main_run 200 [device_granted; token_pending; token_granted]))).
  vm_compute. reflexivity.
Defined.

(** What every ended run leaves of the random source and prints. *)
Lemma flow_frame
    (token_endpoint device_endpoint client_id : string)
    (scope host_header : option string) (polling_interval : Z)
    (endpoint_rewrite : option (dict string))
    (fuel : nat) (w : world) (tr : list event) (o : outcome (exn + json))
    (w' : world) (f' : nat) :
  run fuel w
    (authenticate_device_flow_with_pkce token_endpoint device_endpoint client_id
       scope host_header polling_interval endpoint_rewrite)
  = (tr, o, w', f') ->
  finished o = true ->
  entropy w' = entropy w /\ drawn w' = (128 + drawn w)%nat /\
  (prints_of tr = []
   \/ exists r0 rest u device_code uri msgs,
        inbox w = r0 :: rest /\
        device_fields r0 = Some (u, device_code) /\
        displayed_url endpoint_rewrite u = Some uri /\
        prints_of tr = FString "Please open this URL to authenticate: " uri :: msgs /\
        forallb loop_message msgs = true).
Proof.
  intros Hrun Hfin. apply (run_more_fuel 130) in Hrun; [|exact Hfin].
  rewrite Nat.add_comm in Hrun. rewrite run_flow in Hrun.
  destruct (inbox w) as [|r0 rest] eqn:Hin.
  - injection Hrun as <- <- <- _. repeat split. left. reflexivity.
  - cbv zeta in Hrun.
    destruct (device_phase endpoint_rewrite r0) as [e|[uri device_code]] eqn:Hd.
    + injection Hrun as <- <- <- _. repeat split. left. reflexivity.
    + destruct (run fuel _ (while_True _)) as [[[tr2 o2] w2] f2] eqn:Hloop.
      injection Hrun as <- <- <- _.
      destruct (loop_frame _ _ _ _ _ _ _ _ _ _ _ _ _ _ Hloop Hfin) as [He [Hdr Hmsg]].
      apply device_phase_inr in Hd as [_ [u [Hf Hu]]].
      repeat split; auto. right.
      exists r0, rest, u, device_code, uri, (prints_of tr2). repeat split; auto.
Qed.

(** X16: whatever the servers answer, a run that has ended has drawn
    exactly 128 numbers from the random source, all of them for the
    verifier, and has printed nothing, or one line with the
    [verification_uri_complete] of the device-code response as the rewrite
    map leaves it, followed only by the two messages of the loop. *)
Theorem X16_draws_and_messages
    (token_endpoint device_endpoint client_id : string)
    (scope host_header : option string) (polling_interval : Z)
    (endpoint_rewrite : option (dict string))
    (fuel : nat) (w : world) (tr : list event) (o : outcome (exn + json))
    (w' : world) (f' : nat) :
  run fuel w
    (authenticate_device_flow_with_pkce token_endpoint device_endpoint client_id
       scope host_header polling_interval endpoint_rewrite)
  = (tr, o, w', f') ->
  finished o = true ->
  entropy w' = entropy w /\ drawn w' = (128 + drawn w)%nat /\
  (prints_of tr = []
   \/ exists r0 rest u device_code uri msgs,
        inbox w = r0 :: rest /\
        device_fields r0 = Some (u, device_code) /\
        match endpoint_rewrite with
        | Some (_ :: _) =>
            exists s, u = JStr s /\ uri = JStr (rewrite_url endpoint_rewrite s)
        | _ => uri = u
        end /\
        prints_of tr = FString "Please open this URL to authenticate: " uri :: msgs /\
        forallb loop_message msgs = true).
Proof.
  intros Hrun Hfin.
  destruct (flow_frame _ _ _ _ _ _ _ _ _ _ _ _ _ Hrun Hfin)
    as (He & Hd & [Hnone | (r0 & rest & u & dc & uri & msgs & Hin & Hf & Hu & Hp & Hm)]).
  - repeat split; auto.
  - repeat split; auto. right. exists r0, rest, u, dc, uri, msgs.
    repeat split; auto.
    unfold displayed_url in Hu.
    destruct endpoint_rewrite as [[|p items]|]; try (injection Hu as <-; reflexivity).
    destruct u; try discriminate. injection Hu as <-. eexists. split; reflexivity.
Qed.

Lemma X16_draws_and_messages_witness :
  entropy (world_of (main_run 200 [device_granted; token_pending; token_granted]))
    = entropy (scenario [device_granted; token_pending; token_granted]) /\
  drawn (world_of (main_run 200 [device_granted; token_pending; token_granted]))
    = (128 + drawn (scenario [device_granted; token_pending; token_granted]))%nat /\
  (prints_of (trace_of (main_run 200 [device_granted; token_pending; token_granted]))
     = []
   \/ exists r0 rest u device_code uri msgs,
        inbox (scenario [device_granted; token_pending; token_granted]) = r0 :: rest /\
        device_fields r0 = Some (u, device_code) /\
        match default_endpoint_rewrite with
        | Some (_ :: _) =>
            exists s, u = JStr s /\ uri = JStr (rewrite_url default_endpoint_rewrite s)
        | _ => uri = u
        end /\
        prints_of
          (trace_of (main_run 200 [device_granted; token_pending; token_granted]))
        = FString "Please open this URL to authenticate: " uri :: msgs /\
        forallb loop_message msgs = true).
Proof.
  apply (X16_draws_and_messages
           "http://lakekeeper-keycloak:8080/realms/iceberg/protocol/openid-connect/token"
           "http://lakekeeper-keycloak:8080/realms/iceberg/protocol/openid-connect/auth/device"
           "lakekeeper" (Some "lakekeeper") None default_polling_interval
           default_endpoint_rewrite 200
           (scenario [device_granted; token_pending; token_granted])
           (trace_of (main_run 200 [device_granted; token_pending; token_granted]))
           (outcome_of (main_run 200 [device_granted; token_pending; token_granted]))
           (world_of (main_run 200 [device_granted; token_pending; token_granted]))
           (fuel_of (main_run 200 [device_granted; token_pending; token_granted]))).
  - vm_compute. reflexivity.
  - vm_compute. reflexivity.
Defined.

(** X17: in every run that has ended the requests are the device-code
    request followed by polls that are all the same request: to
    [token_endpoint], with the grant type of the device flow, the client
    id, the device code of the device-code response and the verifier; and
    every sleep of the run lasts [polling_interval]. *)
Theorem X17_polls_are_identical
    (token_endpoint device_endpoint client_id : string)
    (scope host_header : option string) (polling_interval : Z)
    (endpoint_rewrite : option (dict string))
    (fuel : nat) (w : world) (tr : list event) (o : outcome (exn + json))
    (w' : world) (f' : nat) :
  run fuel w
    (authenticate_device_flow_with_pkce token_endpoint device_endpoint client_id
       scope host_header polling_interval endpoint_rewrite)
  = (tr, o, w', f') ->
  finished o = true ->
  exists (device_req token_req : Request) (n : nat),
    requests_of tr = device_req :: repeat token_req n /\
    url device_req = device_endpoint /\
    url token_req = token_endpoint /\
    data token_req =
      [("grant_type", JStr "urn:ietf:params:oauth:grant-type:device_code");
       ("client_id", JStr client_id);
       ("device_code", device_code_of w);
       ("code_verifier", JStr (verifier_of w))] /\
    headers token_req = headers device_req /\
    Forall (eq polling_interval) (sleeps_of tr).
Proof.
  intros Hrun Hfin.
  destruct (flow_requests _ _ _ _ _ _ _ _ _ _ _ _ _ Hrun Hfin) as [n Hreq].
  exists (device_request device_endpoint client_id scope host_header (verifier_of w)),
    (token_request token_endpoint client_id host_header (device_code_of w)
       (verifier_of w)), n.
  repeat split; auto.
  destruct (flow_cases _ _ _ _ _ _ _ _ _ _ _ _ _ Hrun Hfin)
    as [(_ & -> & _) | [(r & rest & e & _ & _ & -> & _)
                       | (r & rest & uri & dc & tr2 & m & _ & _ & -> & _ & Hsl & _)]].
  - constructor.
  - constructor.
  - exact Hsl.
Qed.

Lemma X17_polls_are_identical_witness :
  exists (device_req token_req : Request) (n : nat),
    requests_of
      (trace_of (main_run 200 [device_granted; token_pending; token_granted]))
    = device_req :: repeat token_req n /\
    url device_req
    = "http://lakekeeper-keycloak:8080/realms/iceberg/protocol/openid-connect/auth/device" /\
    url token_req
    = "http://lakekeeper-keycloak:8080/realms/iceberg/protocol/openid-connect/token" /\
    data token_req =
      [("grant_type", JStr "urn:ietf:params:oauth:grant-type:device_code");
       ("client_id", JStr "lakekeeper");
       ("device_code",
        device_code_of (scenario [device_granted; token_pending; token_granted]));
       ("code_verifier",
        JStr (verifier_of (scenario [device_granted; token_pending; token_granted])))] /\
    headers token_req = headers device_req /\
    Forall (eq default_polling_interval)
      (sleeps_of
         (trace_of (main_run 200 [device_granted; token_pending; token_granted]))).
Proof.
  apply (X17_polls_are_identical
           "http://lakekeeper-keycloak:8080/realms/iceberg/protocol/openid-connect/token"
           "http://lakekeeper-keycloak:8080/realms/iceberg/protocol/openid-connect/auth/device"
           "lakekeeper" (Some "lakekeeper") None default_polling_interval
           default_endpoint_rewrite 200
           (scenario [device_granted; token_pending; token_granted])
           (trace_of (main_run 200 [device_granted; token_pending; token_granted]))
           (outcome_of (main_run 200 [device_granted; token_pending; token_granted]))
           (world_of (main_run 200 [device_granted; token_pending; token_granted]))
           (fuel_of (main_run 200 [device_granted; token_pending; token_granted]))).
  - vm_compute. reflexivity.
  - vm_compute. reflexivity.
Defined.

(** ** The verifier of a run *)

Ltac find_index n k :=
  lazymatch n with
  | O => fail
  | S ?n' =>
      first [ exists k; split; [apply Nat.ltb_lt; reflexivity | reflexivity]
            | find_index n' (S k) ]
  end.

(** Every letter and digit has its place in the alphabet. *)
Lemma alnum_index (c : ascii) :
  alnum c = true ->
  exists k, (k < 62)%nat /\ get k verifier_alphabet = Some c.
Proof.
  destruct c as [[] [] [] [] [] [] [] []]; intros H; vm_compute in H;
    try discriminate H; clear H; find_index 62%nat 0%nat.
Qed.

Lemma map_nth_all {A} (d : A) (l : list A) :
  map (fun i => nth i l d) (seq 0 (List.length l)) = l.
Proof.
  induction l as [|a l IH]; [reflexivity|].
  cbn [List.length seq map nth]. f_equal.
  rewrite <- seq_shift, map_map. exact IH.
Qed.

(** Any string of letters and digits is what some numbers pick. *)
Lemma picks_any (s : string) :
  all_chars alnum s = true ->
  exists ks : list nat,
    List.length ks = String.length s /\
    str.join "" (map (fun k => alphabet_char (Nat.modulo k 62)) ks) = s.
Proof.
  induction s as [|c s IH]; intros H.
  - exists []. split; reflexivity.
  - cbn [all_chars] in H. apply andb_true_iff in H as [Hc Hs].
    destruct (IH Hs) as [ks [Hlen Hks]].
    destruct (alnum_index c Hc) as [k [Hk Hget]].
    exists (k :: ks). split; [cbn [List.length String.length]; lia|].
    cbn [map]. rewrite join_empty_cons, Hks, Nat.mod_small by exact Hk.
    unfold alphabet_char. rewrite Hget. reflexivity.
Qed.

(** C5: in every run of the function that has ended, the verifier, the
    string whose challenge the device-code request carries and which every
    poll sends as [code_verifier], has exactly 128 characters, all of them
    letters or digits; its characters are the ones that 128 numbers of the
    random source pick, one number for each character and each in the
    whole alphabet of the 62 letters and digits (sampling with
    replacement: every string of 128 letters and digits is the verifier
    for some numbers); the run takes exactly these 128 numbers from the
    source, which is the one of [secrets.choice]. *)
Theorem C5_code_verifier
    (token_endpoint device_endpoint client_id : string)
    (scope host_header : option string) (polling_interval : Z)
    (endpoint_rewrite : option (dict string))
    (fuel : nat) (w : world) (tr : list event) (o : outcome (exn + json))
    (w' : world) (f' : nat) :
  run fuel w
    (authenticate_device_flow_with_pkce token_endpoint device_endpoint client_id
       scope host_header polling_interval endpoint_rewrite)
  = (tr, o, w', f') ->
  finished o = true ->
  exists (verifier : string) (device_req token_req : Request) (n : nat),
    requests_of tr = device_req :: repeat token_req n /\
    dict_get (data device_req) "code_challenge"
      = Some (JStr (spec.code_challenge_S256 verifier)) /\
    dict_get (data token_req) "code_verifier" = Some (JStr verifier) /\
    String.length verifier = 128%nat /\
    all_chars alnum verifier = true /\
    verifier =
      str.join ""
        (map (fun i => alphabet_char (Nat.modulo (entropy w (drawn w + i)) 62))
             (seq 0 128)) /\
    String.length verifier_alphabet = 62%nat /\
    (forall c, alnum c = true ->
               exists k, (k < 62)%nat /\ alphabet_char k = String c EmptyString) /\
    (forall s, String.length s = 128%nat -> all_chars alnum s = true ->
               exists numbers : nat -> nat,
                 s = str.join ""
                       (map (fun i => alphabet_char (Nat.modulo (numbers i) 62))
                            (seq 0 128))) /\
    entropy w' = entropy w /\ drawn w' = (128 + drawn w)%nat.
Proof.
  intros Hrun Hfin.
  destruct (flow_requests _ _ _ _ _ _ _ _ _ _ _ _ _ Hrun Hfin) as [n Hreq].
  destruct (flow_frame _ _ _ _ _ _ _ _ _ _ _ _ _ Hrun Hfin) as (He & Hd & _).
  exists (verifier_of w),
    (device_request device_endpoint client_id scope host_header (verifier_of w)),
    (token_request token_endpoint client_id host_header (device_code_of w)
       (verifier_of w)), n.
  split; [exact Hreq|]. split.
  { unfold device_request, device_request_data. cbn [data].
    destruct (String.eqb (resolved_scope client_id scope) ""); reflexivity. }
  split; [reflexivity|]. split; [apply verifier_length|].
  split; [apply verifier_alnum|].
  split; [unfold verifier_of; rewrite draws_map; reflexivity|].
  split; [reflexivity|]. split.
  { intros c Hc. destruct (alnum_index c Hc) as [k [Hk Hget]].
    exists k. split; [exact Hk|]. unfold alphabet_char. rewrite Hget. reflexivity. }
  split; [|split; assumption].
  intros s Hlen Hs. destruct (picks_any s Hs) as [ks [Hks Hjoin]].
  exists (fun i => nth i ks 0%nat). rewrite <- Hjoin at 1.
  rewrite <- Hlen, <- Hks.
  rewrite <- (map_nth_all 0%nat ks) at 1. rewrite map_map. reflexivity.
Qed.

Lemma C5_code_verifier_witness :
  exists (verifier : string) (device_req token_req : Request) (n : nat),
    requests_of
      (trace_of (main_run 200 [device_granted; token_pending; token_granted]))
    = device_req :: repeat token_req n /\
    dict_get (data device_req) "code_challenge"
      = Some (JStr (spec.code_challenge_S256 verifier)) /\
    dict_get (data token_req) "code_verifier" = Some (JStr verifier) /\
    String.length verifier = 128%nat /\
    all_chars alnum verifier = true.
Proof.
  destruct (C5_code_verifier
              "http://lakekeeper-keycloak:8080/realms/iceberg/protocol/openid-connect/token"
              "http://lakekeeper-keycloak:8080/realms/iceberg/protocol/openid-connect/auth/device"
              "lakekeeper" (Some "lakekeeper") None default_polling_interval
              default_endpoint_rewrite 200
              (scenario [device_granted; token_pending; token_granted])
              (trace_of (main_run 200 [device_granted; token_pending; token_granted]))
              (outcome_of (main_run 200 [device_granted; token_pending; token_granted]))
              (world_of (main_run 200 [device_granted; token_pending; token_granted]))
              (fuel_of (main_run 200 [device_granted; token_pending; token_granted])))
    as (verifier & device_req & token_req & n & H1 & H2 & H3 & H4 & H5 & _).
  - vm_compute. reflexivity.
  - vm_compute. reflexivity.
  - exists verifier, device_req, token_req, n. repeat split; assumption.
Defined.

(** X18: with a [polling_interval] that [time.sleep] cannot take (at
    least 9223372037 seconds, or at most -9223372037) the first pending
    response prints the message and [time.sleep] raises [OverflowError],
    which no clause catches: the function raises it without having slept
    or polled again. *)
Theorem X18_interval_overflow
    (token_endpoint device_endpoint client_id : string)
    (scope host_header : option string) (polling_interval : Z)
    (endpoint_rewrite : option (dict string))
    (f : nat) (w : world) (r0 r : Response) (rest : list Response)
    (s : string) (device_code : json) :
  inbox w = r0 :: r :: rest -> http_error r0 = false ->
  device_fields r0 = Some (JStr s, device_code) ->
  polling_interval <= - 9223372037 \/ 9223372037 <= polling_interval ->
  status_code r <> 200 -> is_pending r = true ->
  let device_req :=
    device_request device_endpoint client_id scope host_header (verifier_of w) in
  let token_req :=
    token_request token_endpoint client_id host_header device_code (verifier_of w) in
  exists f',
    run (134 + f) w
      (authenticate_device_flow_with_pkce token_endpoint device_endpoint client_id
         scope host_header polling_interval endpoint_rewrite)
    = ([Posted device_req;
        Printed (FString "Please open this URL to authenticate: "
                   (JStr (rewrite_url endpoint_rewrite s)));
        Posted token_req;
        Printed (Literal "Waiting for authentication to complete...")],
       Done (inl OverflowError),
       mkWorld (entropy w) (128 + drawn w) rest, f').
Proof.
  intros Hin Herr Hfields Hpi Hs Hp device_req token_req.
  pose proof (device_phase_ok endpoint_rewrite _ _ _ Herr Hfields) as Hd.
  assert (Hov : time.overflows polling_interval = true).
  { unfold time.overflows, time.sleep_limit. apply orb_true_iff.
    destruct Hpi; [left | right]; apply Z.leb_le; lia. }
  change (134 + f)%nat with (130 + (4 + f))%nat.
  rewrite run_flow, Hin. cbv zeta. rewrite Hd, run_loop_cons. cbv zeta.
  unfold poll_events, poll_completion.
  destruct (Z.eqb_spec (status_code r) 200); [contradiction|].
  rewrite Hp, Hov. cbn. eexists. reflexivity.
Qed.

Lemma X18_interval_overflow_witness :
  exists f',
    run (134 + 0) (scenario [device_granted; token_pending; token_granted])
      (authenticate_device_flow_with_pkce "http://idp/token" "http://idp/device"
         "lakekeeper" None None (2 ^ 63) None)
    = ([Posted (device_request "http://idp/device" "lakekeeper" None None
                  (verifier_of
                     (scenario [device_granted; token_pending; token_granted])));
        Printed
          (FString "Please open this URL to authenticate: "
             (JStr
                (rewrite_url None
                   "http://lakekeeper-keycloak:8080/realms/iceberg/device?user_code=WDJB-MJHT")));
        Posted (token_request "http://idp/token" "lakekeeper" None
                  (JStr "GmRhmhcxhwAzkoEqiMEg_DnyEysNkuNhszIySk9eS")
                  (verifier_of
                     (scenario [device_granted; token_pending; token_granted])));
        Printed (Literal "Waiting for authentication to complete...")],
       Done (inl OverflowError),
       mkWorld scenario_entropy (128 + 0) [token_granted], f').
Proof.
  apply (X18_interval_overflow "http://idp/token" "http://idp/device" "lakekeeper"
           None None (2 ^ 63) None 0
           (scenario [device_granted; token_pending; token_granted])
           device_granted token_pending [token_granted]
           "http://lakekeeper-keycloak:8080/realms/iceberg/device?user_code=WDJB-MJHT"
           (JStr "GmRhmhcxhwAzkoEqiMEg_DnyEysNkuNhszIySk9eS")).
  - reflexivity.
  - reflexivity.
  - reflexivity.
  - right. vm_compute. discriminate.
  - vm_compute. discriminate.
  - reflexivity.
Defined.
